(** * ssl-checker: the expiry-probing and classification pipeline of
      [src/index.ts], embedded in Rocq.

    Conventions of the embedding.

    - A JavaScript string is a [string]: the bytes of its UTF-8 encoding.
      The source only ever searches for ASCII characters ([':'], digits,
      signs), and no multi-byte UTF-8 sequence contains an ASCII byte, so
      [indexOf], [split] and [parseInt] see the same positions as they do
      on UTF-16 code units.
    - A time value (milliseconds since the epoch, as [Date.now()] and
      [Date.prototype.getTime()] return it) is a [Z].
    - A rejected promise or a thrown exception is the [Err] case of
      [Result]; only the [message] of an [Error] is ever inspected.  A
      promise that is never settled is the [Pending] case. *)

From Stdlib Require Import ZArith QArith Qround Lia Bool List.
From Stdlib Require Import Ascii String DecimalString DecimalNat.
From Stdlib Require Import Sorted Permutation.
Import ListNotations.

Open Scope string_scope.
Open Scope Z_scope.

(** ** Strings *)

Module JsString.

(** The one-character string holding a double quote. *)
Definition dquote : string := String (ascii_of_nat 34) EmptyString.

(** [s.indexOf(c) !== -1] for a one-character needle. *)
Fixpoint includes (c : ascii) (s : string) : bool :=
  match s with
  | EmptyString => false
  | String a s' => if Ascii.eqb a c then true else includes c s'
  end.

(** The number of occurrences of [c] in [s]. *)
Fixpoint count (c : ascii) (s : string) : nat :=
  match s with
  | EmptyString => O
  | String a s' => if Ascii.eqb a c then S (count c s') else count c s'
  end.

(** [s.split(c)] for a one-character separator: the pieces between the
    occurrences of [c], always at least one piece. *)
Fixpoint split (c : ascii) (s : string) : list string :=
  match s with
  | EmptyString => [EmptyString]
  | String a s' =>
      if Ascii.eqb a c then EmptyString :: split c s'
      else match split c s' with
           | [] => [String a EmptyString]
           | p :: ps => String a p :: ps
           end
  end.

(** Template-literal rendering of a non-negative integer
    ([`${content.length}`]). *)
Definition of_nat (n : nat) : string := NilZero.string_of_uint (Nat.to_uint n).

End JsString.

(** ** Numbers *)

(** The Number values an integer can become: JavaScript keeps every number
    as a binary64 value. *)
Module JsNumber.

(** An integer that is a binary64 value, or an infinity.  Minus zero is
    [Finite 0]: the source makes no test that tells it from zero. *)
Inductive Number :=
| Finite (z : Z)
| Infinity
| NegInfinity.

(** The binary64 value nearest to a non-negative integer, a tie going to
    the even significand, with no bound on the exponent.  Up to [2^53]
    every integer is a binary64 value; above, [m] lies in
    [[2^(52+k), 2^(53+k))] and the binary64 values there are the multiples
    of [2^k]. *)
Definition round_magnitude (m : Z) : Z :=
  if m <=? 9007199254740992 then m
  else
    let k := Z.log2 m - 52 in
    let q := m / 2 ^ k in
    let r := m mod 2 ^ k in
    let half := 2 ^ (k - 1) in
    let q' := if r <? half then q
              else if half <? r then q + 1
              else if Z.even q then q else q + 1 in
    q' * 2 ^ k.

(** The Number value of a mathematical integer: it is rounded to the
    nearest binary64 value, and to an infinity from [2^1024] on. *)
Definition of_Z (n : Z) : Number :=
  let m := round_magnitude (Z.abs n) in
  if 2 ^ 1024 <=? m then (if n <? 0 then NegInfinity else Infinity)
  else Finite (if n <? 0 then - m else m).

End JsNumber.

(** ** [parseInt] with no radix argument (ECMA-262, 19.2.5) *)

Module ParseInt.

(** [StrWhiteSpaceChar]: WhiteSpace and LineTerminator code points, read
    off the front of the UTF-8 bytes.  Returns the rest of the string
    when its first code point is one of them. *)
Definition skip_one_space (s : string) : option string :=
  match s with
  | String a r =>
      let n := nat_of_ascii a in
      if ((n =? 9) || (n =? 10) || (n =? 11) || (n =? 12) || (n =? 13)
          || (n =? 32))%nat then Some r
      else match r with
           | String b r2 =>
               let m := nat_of_ascii b in
               if ((n =? 194) && (m =? 160))%nat then Some r2 (* U+00A0 *)
               else match r2 with
                    | String c r3 =>
                        let k := nat_of_ascii c in
                        if ((n =? 225) && (m =? 154) && (k =? 128))%nat
                        then Some r3                         (* U+1680 *)
                        else if ((n =? 226) && (m =? 128)
                                 && (((128 <=? k) && (k <=? 138)) || (k =? 168) || (k =? 169)
                                     || (k =? 175)))%nat
                        then Some r3      (* U+2000..200A, 2028, 2029, 202F *)
                        else if ((n =? 226) && (m =? 129) && (k =? 159))%nat
                        then Some r3                         (* U+205F *)
                        else if ((n =? 227) && (m =? 128) && (k =? 128))%nat
                        then Some r3                         (* U+3000 *)
                        else if ((n =? 239) && (m =? 187) && (k =? 191))%nat
                        then Some r3                         (* U+FEFF *)
                        else None
                    | EmptyString => None
                    end
           | EmptyString => None
           end
  | EmptyString => None
  end.

(** [TrimString(inputString, start)].  The fuel is the length of the
    string, which every skipped code point shortens. *)
Fixpoint trim_start_fuel (fuel : nat) (s : string) : string :=
  match fuel with
  | O => s
  | S fuel' =>
      match skip_one_space s with
      | Some r => trim_start_fuel fuel' r
      | None => s
      end
  end.

Definition trim_start (s : string) : string :=
  trim_start_fuel (String.length s) s.

(** The value of a digit in the given radix, if it is one. *)
Definition digit_value (radix : Z) (a : ascii) : option Z :=
  let n := Z.of_nat (nat_of_ascii a) in
  let v := if (48 <=? n) && (n <=? 57) then Some (n - 48)
           else if (97 <=? n) && (n <=? 122) then Some (n - 87)
           else if (65 <=? n) && (n <=? 90) then Some (n - 55)
           else None in
  match v with
  | Some d => if d <? radix then Some d else None
  | None => None
  end.

(** The longest prefix of radix digits, most significant first. *)
Fixpoint leading_digits (radix : Z) (s : string) : list Z :=
  match s with
  | EmptyString => []
  | String a s' =>
      match digit_value radix a with
      | Some d => d :: leading_digits radix s'
      | None => []
      end
  end.

Definition digits_value (radix : Z) (ds : list Z) : Z :=
  fold_left (fun acc d => acc * radix + d) ds 0.

(** Steps 9 to 15 on the string left after trimming and the sign. *)
Definition magnitude (s : string) : option Z :=
  let '(radix, body) :=
    match s with
    | String a (String b r) =>
        if Ascii.eqb a "0" && (Ascii.eqb b "x" || Ascii.eqb b "X")
        then (16, r) else (10, s)
    | _ => (10, s)
    end in
  match leading_digits radix body with
  | [] => None
  | ds => Some (digits_value radix ds)
  end.

(** Steps 1 to 13: the mathematical integer that the numeral denotes,
    with its sign; [None] when there is no numeral. *)
Definition mathInt (s : string) : option Z :=
  match trim_start s with
  | String a r =>
      if Ascii.eqb a "-" then option_map Z.opp (magnitude r)
      else if Ascii.eqb a "+" then magnitude r
      else magnitude (String a r)
  | EmptyString => None
  end.

(** [parseInt(s)].  [None] is NaN; otherwise the result is the Number
    value of the mathematical integer (steps 14 and 15).  For a decimal
    numeral of more than 20 significant digits the standard lets an engine
    round less exactly; the nearest binary64 value is what V8 returns. *)
Definition parseInt (s : string) : option JsNumber.Number :=
  option_map JsNumber.of_Z (mathInt s).

(** A string of decimal digits and nothing else, as a number. *)
Definition decimal (s : string) : option Z :=
  match leading_digits 10 s with
  | [] => None
  | ds =>
      if (List.length ds =? String.length s)%nat
      then Some (digits_value 10 ds) else None
  end.

End ParseInt.

(** ** Errors and the effects of one run *)

(** A JavaScript [Error]; the source reads nothing but its [message]. *)
Record JsError := Error { message : string }.

(** How synchronous code ends: it returns, or it throws. *)
Inductive Completion (A : Type) :=
| Returns (a : A)
| Throws (e : JsError).
Arguments Returns {A} a.
Arguments Throws {A} e.

(** How a promise ends: fulfilled, rejected, or never settled. *)
Inductive Result (A : Type) :=
| Ok (a : A)
| Err (e : JsError)
| Pending.
Arguments Ok {A} a.
Arguments Err {A} e.
Arguments Pending {A}.

(** The [Config] interface (lines 77 to 92). *)
Record Auth := { user : string; pass : string }.
Record MailFrom := {
  name : string; host : string; port : Z; secure : bool; auth : Auth }.
Record Email := { from : MailFrom; to : string }.
Record Config := { email : Email; hosts : list string }.

(** The options of [nodemailer.createTransport] and of [sendMail]. *)
Record Transport := {
  t_host : string; t_port : Z; t_secure : bool; t_auth : Auth }.
Record Mail := {
  m_from : string; m_to : string; m_subject : string; m_html : string }.

(** What a run does to the outside: console lines and mail handed to the
    transport, in program order. *)
Inductive Effect :=
| ConsoleLog (line : string)
| ConsoleInfo (line : string)
| ConsoleError (e : JsError)
| SendMail (t : Transport) (m : Mail).

(** The answer of [tls.connect({host, port, servername: host}, ...)]:
    either the secure-connect callback fires, and the peer certificate's
    [valid_to] read through [new Date(...).getTime()] is the given time
    value, or the socket emits ['error'], or neither ever happens (the
    source sets no timeout).  A certificate whose [valid_to] is no date,
    for which [getTime()] is NaN, is outside the model. *)
Inductive TlsOutcome :=
| Handshake (valid_to : Z)
| SocketError (e : JsError)
| NoAnswer.

(** Everything outside the program that one run consults. *)
Record World := {
  (** [Date.now()] on line 106 *)
  Date_now : Z;
  (** the network, asked for a host and a port *)
  tls_connect : string -> JsNumber.Number -> TlsOutcome;
  (** [moment(t).fromNow()] in the zh-cn locale; moment measures [t]
      against the wall clock it reads when line 119 runs *)
  moment_fromNow : Z -> string;
  (** the mail transport: the message id, a rejection, or no answer *)
  mailer_sendMail : Transport -> Mail -> Result string }.

(** The module-level variables that outlive a run: the cache [_config]. *)
Record ProcState := { _config : option Config }.

Definition initial : ProcState := {| _config := None |}.

Record Outcome (A : Type) := {
  trace : list Effect; final : ProcState; result : Result A }.
Arguments trace {A} o.
Arguments final {A} o.
Arguments result {A} o.

(** Computations that read and write the module state, emit effects and
    may throw. *)
Definition M (A : Type) : Type := ProcState -> Outcome A.

Definition ret {A} (a : A) : M A :=
  fun st => {| trace := []; final := st; result := Ok a |}.

Definition throw {A} (e : JsError) : M A :=
  fun st => {| trace := []; final := st; result := Err e |}.

(** An [await] that never resumes. *)
Definition pending {A} : M A :=
  fun st => {| trace := []; final := st; result := Pending |}.

Definition bind {A B} (m : M A) (k : A -> M B) : M B :=
  fun st =>
    let o := m st in
    match result o with
    | Ok a =>
        let o' := k a (final o) in
        {| trace := (trace o ++ trace o')%list; final := final o';
           result := result o' |}
    | Err e => {| trace := trace o; final := final o; result := Err e |}
    | Pending => {| trace := trace o; final := final o; result := Pending |}
    end.

Definition emit (e : Effect) : M unit :=
  fun st => {| trace := [e]; final := st; result := Ok tt |}.

Notation "x <- m ;; k" := (bind m (fun x => k))
  (at level 61, m at next level, right associativity).
Notation "m ;;; k" := (bind m (fun _ => k))
  (at level 61, right associativity).

(** [try { body } catch (e) { handler(e) }]. *)
Definition try_catch {A} (body : M A) (handler : JsError -> M A) : M A :=
  fun st =>
    let o := body st in
    match result o with
    | Ok _ | Pending => o
    | Err e =>
        let o' := handler e (final o) in
        {| trace := (trace o ++ trace o')%list; final := final o';
           result := result o' |}
    end.

(** [Promise.all] over promises that are all started before any is
    awaited: every one of them runs as far as it gets, the whole rejects as
    soon as one does, and otherwise waits for all of them.  The effects are
    listed in array order and the rejection reported is that of the first
    failing element; at run time the network decides both orders. *)
Fixpoint Promise_all {A} (ps : list (M A)) : M (list A) :=
  match ps with
  | [] => ret []
  | p :: ps' =>
      fun st =>
        let o := p st in
        let o' := Promise_all ps' (final o) in
        {| trace := (trace o ++ trace o')%list; final := final o';
           result := match result o, result o' with
                     | Ok a, Ok l => Ok (a :: l)
                     | Err e, _ | _, Err e => Err e
                     | Pending, _ | _, Pending => Pending
                     end |}
  end.

(** ** The pipeline *)

Definition MIN : Z := 60 * 1000.
Definition HOUR : Z := MIN * 60.
Definition DAY : Z := HOUR * 24.

(** [Math.round]: the nearest integer, a tie going to the larger one. *)
Definition Math_round (x : Q) : Z := Qfloor (x + (1 # 2)).

(** [Math.round((expireAt - now) / DAY)] of line 113.  JavaScript computes
    the quotient in binary64.  For [|expireAt - now| < 2^53] the quotient is
    below [2^27], where a double is within [2^-27] of the exact value; the
    exact quotient is either a tie, which is a double, or at least
    [1 / DAY > 2^-27] away from every tie, so rounding the double and
    rounding the exact quotient give the same integer. *)
Definition daysUntilExpiry (now expireAt : Z) : Z :=
  Math_round (inject_Z (expireAt - now) / inject_Z DAY).

(** The text pushed for an expired certificate (line 116). *)
Definition EXPIRED_TEXT : string :=
  "<span style=" ++ JsString.dquote ++ "color: red;" ++ JsString.dquote
  ++ ">已过期！</span>".

(** The array [items] holds [[host, expireAt]] pairs, [content] holds
    [[host, displayText]] pairs. *)
Definition Item : Type := string * Z.
Definition Line : Type := string * string.

(** [array.push(x)]. *)
Definition push {A} (array : list A) (x : A) : list A := (array ++ [x])%list.

(** [items.sort((a, b) => a[1] - b[1])]: [Array.prototype.sort] is stable
    and the comparator is a total preorder on time values, so the result is
    the one stable arrangement by ascending [expireAt].  Insertion from the
    right computes it. *)
Fixpoint insert (x : Item) (l : list Item) : list Item :=
  match l with
  | [] => [x]
  | y :: l' => if snd x <=? snd y then x :: y :: l' else y :: insert x l'
  end.

Fixpoint sort (l : list Item) : list Item :=
  match l with
  | [] => []
  | x :: l' => insert x (sort l')
  end.

(** Lines 64 to 71. *)
Definition convertToHTMLList (list : list Line) : string :=
  let htmlString := "<ul>" in
  let htmlString :=
    fold_left
      (fun htmlString item =>
         htmlString ++ "<li><strong>" ++ fst item ++ "</strong>: "
         ++ snd item ++ "</li>")
      list htmlString in
  htmlString ++ "</ul>".

Section Pipeline.

(** What [require('../config.json')] evaluates to; Node evaluates a
    module once per process. *)
Variable config_json : Config.

Variable w : World.

(** Lines 96 to 101. *)
Definition getConfig : M Config :=
  fun st =>
    match _config st with
    | Some c => {| trace := []; final := st; result := Ok c |}
    | None =>
        {| trace := []; final := {| _config := Some config_json |};
           result := Ok config_json |}
    end.

(** Lines 11 to 22 of [tslConnect]: the host and port the connection is
    opened to, or the error thrown.  The second [throw] interpolates
    [host] after it has been reassigned. *)
Definition tslConnect_target (host : string)
  : Completion (string * JsNumber.Number) :=
  let port := JsNumber.Finite 443 in
  if JsString.includes ":" host then
    let hostAndPort := JsString.split ":" host in
    match hostAndPort with
    | [h; p] =>
        match ParseInt.parseInt p with
        | Some port => Returns (h, port)
        | None => Throws (Error ("invalid host: " ++ h))
        end
    | _ => Throws (Error ("invalid host: " ++ host))
    end
  else Returns (host, port).

(** Lines 10 to 29: the promise resolves with the connected socket, of
    which the caller reads the certificate's expiry, or rejects with the
    socket's error. *)
Definition tslConnect (host : string) : M Z :=
  match tslConnect_target host with
  | Returns (h, port) =>
      match tls_connect w h port with
      | Handshake valid_to => ret valid_to
      | SocketError e => throw e
      | NoAnswer => pending
      end
  | Throws e => throw e
  end.

(** Lines 31 to 45. *)
Definition getExpireTime (host : string) : M Z :=
  try_catch
    (tslConnect host)
    (fun e =>
       if String.eqb (message e) "certificate has expired" then ret 0
       else emit (ConsoleError e) ;;; throw e).

(** Lines 47 to 62. *)
Definition sendMailToMe (subject content : string) : M unit :=
  cfg <- getConfig ;;
  let from := from (email cfg) in
  let to := to (email cfg) in
  let mailer :=
    {| t_host := host from; t_port := port from; t_secure := secure from;
       t_auth := auth from |} in
  let mail :=
    {| m_from := name from ++ " <" ++ user (auth from) ++ ">";
       m_to := to; m_subject := subject; m_html := content |} in
  emit (SendMail mailer mail) ;;;
  match mailer_sendMail w mailer mail with
  | Ok messageId => emit (ConsoleInfo ("email sent [id=" ++ messageId ++ "]"))
  | Err e => throw e
  | Pending => pending
  end.

(** The body of the [for] loop, lines 113 to 121, on the loop's
    variables [content] and [needNotify]. *)
Definition loop_body (now : Z) (acc : list Line * bool) (item : Item)
  : list Line * bool :=
  let '(content, needNotify) := acc in
  let '(host, expireAt) := item in
  let diff := Math_round (inject_Z (expireAt - now) / inject_Z DAY) in
  let content :=
    if diff <? 0 then push content (host, EXPIRED_TEXT)
    else if diff <? 30 then
      push content (host, moment_fromNow w expireAt ++ "过期")
    else content in
  (content, needNotify || (diff <=? 14)).

(** Lines 105 and 111 to 122. *)
Definition classify_loop (now : Z) (items : list Item) : list Line * bool :=
  fold_left (loop_body now) items ([], false).

(** The arrow function of lines 108 and 109. *)
Definition probe_one (host : string) : M Item :=
  expireAt <- getExpireTime host ;; ret (host, expireAt).

(** Lines 107 to 109: one probe per configured host. *)
Definition probe_all (hosts : list string) : M (list Item) :=
  Promise_all (map probe_one hosts).

(** Lines 103 to 127. *)
Definition checkAll : M unit :=
  emit (ConsoleLog "checking all hosts...") ;;;
  let now := Date_now w in
  cfg <- getConfig ;;
  items <- probe_all (hosts cfg) ;;
  let items := sort items in
  let '(content, needNotify) := classify_loop now items in
  if needNotify then
    let html := convertToHTMLList content in
    sendMailToMe
      ("[" ++ JsString.of_nat (List.length content) ++ "🚨] SSL 证书到期检测")
      html
  else ret tt.

End Pipeline.

(** ** The scheduler *)

(** The cron patterns of the [cron] package, as far as the source uses
    them: five fields (minute, hour, day of month, month, day of week), or
    six with the seconds in front; each field is a number or [*], the day
    of the week [*].  A pattern with five fields fires at second 0. *)
Module Cron.

Record LocalTime := {
  second : Z; minute : Z; hour : Z;
  dayOfMonth : Z; month : Z; dayOfWeek : Z }.

Inductive Field :=
| Any
| Exactly (n : Z).

Definition parse_field (s : string) : option Field :=
  if String.eqb s "*" then Some Any else option_map Exactly (ParseInt.decimal s).

Definition field_matches (f : Field) (v : Z) : bool :=
  match f with
  | Any => true
  | Exactly n => v =? n
  end.

(** Whether the pattern fires at the given wall-clock second; [None] for
    a pattern outside the fragment above. *)
Definition fires (cronTime : string) (t : LocalTime) : option bool :=
  match map parse_field (JsString.split " " cronTime) with
  | [Some mi; Some h; Some dom; Some mo; Some Any] =>
      Some ((second t =? 0) && field_matches mi (minute t)
            && field_matches h (hour t)
            && field_matches dom (dayOfMonth t)
            && field_matches mo (month t))
  | [Some s; Some mi; Some h; Some dom; Some mo; Some Any] =>
      Some (field_matches s (second t) && field_matches mi (minute t)
            && field_matches h (hour t)
            && field_matches dom (dayOfMonth t)
            && field_matches mo (month t))
  | _ => None
  end.

(** The readings of a clock through one day of a zone that does not
    shift its clock that day (Asia/Shanghai has not since 1991): every
    hour, minute and second once. *)
Definition seconds_of_day (dom mo dow : Z) : list LocalTime :=
  map (fun '(h, mi, s) =>
         {| second := s; minute := mi; hour := h;
            dayOfMonth := dom; month := mo; dayOfWeek := dow |})
      (list_prod (list_prod (map Z.of_nat (seq 0 24)) (map Z.of_nat (seq 0 60)))
                 (map Z.of_nat (seq 0 60))).

End Cron.

(** The options given to [CronJob.from]; [onTick] is always [checkAll]. *)
Record CronJobParams := {
  cronTime : string; start : bool; timeZone : string }.

Inductive Startup :=
| RunNow                         (* [checkAll().then()] *)
| Install (job : CronJobParams). (* [CronJob.from({...})] *)

(** Lines 129 to 142, on the value of [process.env['RUN']], which is
    [undefined] when the variable is not set. *)
Definition main (RUN : option string) : list Effect * Startup :=
  if match RUN with Some v => String.eqb v "1" | None => false end
  then ([ConsoleLog "run now..."], RunNow)
  else ([ConsoleLog "start checking per 10min..."],
        Install {| cronTime := "0 10 * * *"; start := true;
                   timeZone := "Asia/Shanghai" |}).

(** One second of the process's life: what the wall clock reads in each
    named time zone, and the world a run started then would meet. *)
Record Tick := { wall_clock : string -> Cron.LocalTime; world : World }.

Section Process.

Variable config_json : Config.

(** The started job calls [onTick] at every second its pattern fires
    at, read in its time zone.  The module state is whatever the earlier
    runs left. *)
Fixpoint run_ticks (job : CronJobParams) (timeline : list Tick)
                   (st : ProcState) : list Effect :=
  match timeline with
  | [] => []
  | t :: rest =>
      match Cron.fires (cronTime job) (wall_clock t (timeZone job)) with
      | Some true =>
          let o := checkAll config_json (world t) st in
          (trace o ++ run_ticks job rest (final o))%list
      | _ => run_ticks job rest st
      end
  end.

(** The effects of the process from its start (line 144) on: [w0] is the
    world at start, [timeline] the seconds the process lives through
    afterwards.  A run is taken to finish before the next second. *)
Definition process (RUN : option string) (w0 : World)
                   (timeline : list Tick) : list Effect :=
  let '(logs, startup) := main RUN in
  match startup with
  | RunNow => (logs ++ trace (checkAll config_json w0 initial))%list
  | Install job =>
      (logs ++ if start job then run_ticks job timeline initial else [])%list
  end.

End Process.

(** The mails handed to the transport in a trace. *)
Fixpoint mails_sent (tr : list Effect) : list Mail :=
  match tr with
  | [] => []
  | SendMail _ m :: tr' => m :: mails_sent tr'
  | _ :: tr' => mails_sent tr'
  end.

(** ** Vocabulary for the statements *)

(** The lines one iteration of the loop pushes for an item: none or one. *)
Definition entry (w : World) (now : Z) (item : Item) : list Line :=
  fst (loop_body w now ([], false) item).

(** The value [diff <= 14] an iteration ORs into [needNotify]. *)
Definition trigger (now : Z) (item : Item) : bool :=
  daysUntilExpiry now (snd item) <=? 14.

(** An item some branch of lines 114 to 120 pushes a line for. *)
Definition reportable (now : Z) (item : Item) : bool :=
  daysUntilExpiry now (snd item) <? 30.

(** The display text of a reportable item. *)
Definition displayText (w : World) (now : Z) (item : Item) : string :=
  if daysUntilExpiry now (snd item) <? 0 then EXPIRED_TEXT
  else moment_fromNow w (snd item) ++ "过期".

(** One list item of the mail body. *)
Definition li (item : Line) : string :=
  "<li><strong>" ++ fst item ++ "</strong>: " ++ snd item ++ "</li>".

(** The transport, the message and the subject line of lines 49 to 60 and
    125. *)
Definition transport_of (cfg : Config) : Transport :=
  let from := from (email cfg) in
  {| t_host := host from; t_port := port from; t_secure := secure from;
     t_auth := auth from |}.

Definition mail_of (cfg : Config) (subject html : string) : Mail :=
  let from := from (email cfg) in
  {| m_from := name from ++ " <" ++ user (auth from) ++ ">";
     m_to := to (email cfg); m_subject := subject; m_html := html |}.

Definition subject_of (content : list Line) : string :=
  "[" ++ JsString.of_nat (List.length content) ++ "🚨] SSL 证书到期检测".

(** The order [items] is sorted by. *)
Definition by_expiry (a b : Item) : Prop := snd a <= snd b.

(** The module state a process can be in: nothing cached yet, or the
    configuration file. *)
Definition reachable (config_json : Config) (st : ProcState) : Prop :=
  st = initial \/ st = {| _config := Some config_json |}.

(** What a run started in a reachable state comes to, with the monad
    unfolded ([checkAll_run] below proves it): the probes' answers decide
    everything. *)
Definition run_view (config_json : Config) (w : World) : Outcome unit :=
  let now := Date_now w in
  let st := {| _config := Some config_json |} in
  let probes := probe_all w (hosts config_json) initial in
  match result probes with
  | Err e =>
      {| trace := ConsoleLog "checking all hosts..." :: trace probes;
         final := st; result := Err e |}
  | Pending =>
      {| trace := ConsoleLog "checking all hosts..." :: trace probes;
         final := st; result := Pending |}
  | Ok items =>
      let content := flat_map (entry w now) (sort items) in
      if existsb (trigger now) items then
        let t := transport_of config_json in
        let m := mail_of config_json (subject_of content)
                   (convertToHTMLList content) in
        match mailer_sendMail w t m with
        | Ok messageId =>
            {| trace := [ConsoleLog "checking all hosts..."; SendMail t m;
                         ConsoleInfo ("email sent [id=" ++ messageId ++ "]")];
               final := st; result := Ok tt |}
        | Err e =>
            {| trace := [ConsoleLog "checking all hosts..."; SendMail t m];
               final := st; result := Err e |}
        | Pending =>
            {| trace := [ConsoleLog "checking all hosts..."; SendMail t m];
               final := st; result := Pending |}
        end
      else
        {| trace := [ConsoleLog "checking all hosts..."]; final := st;
           result := Ok tt |}
  end.

(** The second at which the installed job is due. *)
Definition ten_o_clock (t : Cron.LocalTime) : bool :=
  (Cron.hour t =? 10) && (Cron.minute t =? 0) && (Cron.second t =? 0).

(** The specification's wording, for comparison with the code. *)
Module Spec.

(** 4.1, a port substring that is a base-10 integer: an optional sign,
    then decimal digits and nothing else. *)
Definition base10_integer (s : string) : option Z :=
  match s with
  | String a r =>
      if Ascii.eqb a "-" then option_map Z.opp (ParseInt.decimal r)
      else if Ascii.eqb a "+" then ParseInt.decimal r
      else ParseInt.decimal s
  | EmptyString => None
  end.

(** 4.3, rounding to the nearest integer with ties away from zero. *)
Definition round_half_away (x : Q) : Z :=
  if Qle_bool 0 x then Qfloor (x + (1 # 2)) else - Qfloor (- x + (1 # 2)).

(** 4.3, rounding to the nearest integer with ties to the even one. *)
Definition round_half_even (x : Q) : Z :=
  let f := Qfloor x in
  match (x - inject_Z f ?= 1 # 2)%Q with
  | Lt => f
  | Gt => f + 1
  | Eq => if Z.even f then f else f + 1
  end.

End Spec.

(** A world to run the pipeline in: one host with an expired certificate,
    one that refuses the connection, one whose certificate has twenty days
    left, one with forty-five, and every other host answering with a
    certificate that expires ten days after the reading of the clock.  The
    formatter is a stand-in that only tells the past from the future. *)
Definition demo_now : Z := 1700000000000.

Definition demo_world : World := {|
  Date_now := demo_now;
  tls_connect := fun h _ =>
    if String.eqb h "expired.example"
    then SocketError (Error "certificate has expired")
    else if String.eqb h "down.example"
    then SocketError (Error "connect ECONNREFUSED 192.0.2.1:443")
    else if String.eqb h "later.example"
    then Handshake (demo_now + 20 * DAY)
    else if String.eqb h "fine.example"
    then Handshake (demo_now + 45 * DAY)
    else Handshake (demo_now + 10 * DAY);
  moment_fromNow := fun t =>
    if t <? demo_now then "some time ago" else "in some time";
  mailer_sendMail := fun _ _ => Ok "<id@mail.example>" |}.

(** The demo world with three hosts whose certificates expire 100 days
    after the reading of the clock, one day before it and 10 days after
    it. *)
Definition offsets_world : World := {|
  Date_now := demo_now;
  tls_connect := fun h _ =>
    if String.eqb h "a.example" then Handshake (demo_now + 100 * DAY)
    else if String.eqb h "b.example" then Handshake (demo_now + (-1) * DAY)
    else Handshake (demo_now + 10 * DAY);
  moment_fromNow := moment_fromNow demo_world;
  mailer_sendMail := mailer_sendMail demo_world |}.

Definition demo_config (hs : list string) : Config := {|
  email := {|
    from := {| name := "SSL Checker"; host := "smtp.example"; port := 465;
               secure := true;
               auth := {| user := "bot@mail.example"; pass := "secret" |} |};
    to := "ops@mail.example" |};
  hosts := hs |}.


(** Two seconds of a day in the demo world: 09:59:59 and 10:00:00, on
    every zone's clock. *)
Definition demo_timeline : list Tick :=
  [ {| wall_clock := fun _ =>
         {| Cron.second := 59; Cron.minute := 59; Cron.hour := 9;
            Cron.dayOfMonth := 14; Cron.month := 11; Cron.dayOfWeek := 2 |};
       world := demo_world |};
    {| wall_clock := fun _ =>
         {| Cron.second := 0; Cron.minute := 0; Cron.hour := 10;
            Cron.dayOfMonth := 14; Cron.month := 11; Cron.dayOfWeek := 2 |};
       world := demo_world |} ].

(** ** Vocabulary for the further properties *)

(** The messages handed to the transport in a trace, each with the
    transport options it was handed to. *)
Fixpoint sends (tr : list Effect) : list (Transport * Mail) :=
  match tr with
  | [] => []
  | SendMail t m :: tr' => (t, m) :: sends tr'
  | _ :: tr' => sends tr'
  end.

(** The lines printed with [console.info] in a trace. *)
Fixpoint infos (tr : list Effect) : list string :=
  match tr with
  | [] => []
  | ConsoleInfo line :: tr' => line :: infos tr'
  | _ :: tr' => infos tr'
  end.

(** The demo world with one more host, which never answers, and a
    transport that rejects every message. *)
Definition silent_world : World := {|
  Date_now := Date_now demo_world;
  tls_connect := fun h p =>
    if String.eqb h "silent.example" then NoAnswer
    else tls_connect demo_world h p;
  moment_fromNow := moment_fromNow demo_world;
  mailer_sendMail := fun _ _ => Err (Error "Invalid login: 535") |}.

(** The digits of a decimal numeral, most significant first. *)
Fixpoint uint_digits (d : Decimal.uint) : list Z :=
  match d with
  | Decimal.Nil => []
  | Decimal.D0 d => 0 :: uint_digits d
  | Decimal.D1 d => 1 :: uint_digits d
  | Decimal.D2 d => 2 :: uint_digits d
  | Decimal.D3 d => 3 :: uint_digits d
  | Decimal.D4 d => 4 :: uint_digits d
  | Decimal.D5 d => 5 :: uint_digits d
  | Decimal.D6 d => 6 :: uint_digits d
  | Decimal.D7 d => 7 :: uint_digits d
  | Decimal.D8 d => 8 :: uint_digits d
  | Decimal.D9 d => 9 :: uint_digits d
  end.

(** ** Proof tools *)

(** Splits on every comparison in the goal and closes the branches that
    arithmetic rules out. *)
Ltac case_days :=
  repeat match goal with
    | |- context [?a <? ?b] => destruct (Z.ltb_spec a b)
    | |- context [?a <=? ?b] => destruct (Z.leb_spec a b)
    end;
  try lia; try reflexivity.

(** Goes through the ways a probe can end: the host string is refused,
    the handshake succeeds, the socket fails with the expired-certificate
    message or with another one, or nothing ever answers. *)
Ltac case_probe :=
  unfold getExpireTime, try_catch, tslConnect;
  match goal with
  | |- context [tslConnect_target ?host] =>
      destruct (tslConnect_target host) as [[? ?]|?]
  end;
  [ match goal with
    | |- context [tls_connect ?w ?h ?p] => destruct (tls_connect w h p)
    end
  | ];
  cbn;
  try match goal with
    | |- context [String.eqb ?m ?s] => destruct (String.eqb m s)
    end;
  reflexivity.

(** * Properties *)

(** ** Rounding *)

Lemma Math_round_div (n : Z) :
  Math_round (inject_Z n / inject_Z DAY) = (2 * n + DAY) / (2 * DAY).
Proof.
  unfold Math_round.
  assert (E : (inject_Z n / inject_Z DAY + (1 # 2)
               == (2 * n + DAY) # 172800000)%Q).
  { change DAY with 86400000.
    unfold Qeq, Qdiv, Qmult, Qplus, Qinv, inject_Z. cbn [Qnum Qden]. lia. }
  rewrite (Qfloor_comp _ _ E). reflexivity.
Qed.

Lemma daysUntilExpiry_div (now expireAt : Z) :
  daysUntilExpiry now expireAt = (2 * (expireAt - now) + DAY) / (2 * DAY).
Proof. apply Math_round_div. Qed.

(** The day count is the integer [d] with
    [d - 1/2 <= (expireAt - now) / DAY < d + 1/2]. *)
Lemma daysUntilExpiry_iff (now expireAt d : Z) :
  daysUntilExpiry now expireAt = d <->
  (2 * d - 1) * DAY <= 2 * (expireAt - now) < (2 * d + 1) * DAY.
Proof.
  rewrite daysUntilExpiry_div. change DAY with 86400000. split.
  - intros <-.
    pose proof (Z.div_mod (2 * (expireAt - now) + 86400000) (2 * 86400000)
                  ltac:(lia)) as E.
    pose proof (Z.mod_pos_bound (2 * (expireAt - now) + 86400000)
                  (2 * 86400000) ltac:(lia)) as B.
    lia.
  - intros B. symmetry. apply Z.div_unique with
      (r := 2 * (expireAt - now) + 86400000 - 2 * 86400000 * d); lia.
Qed.

Lemma daysUntilExpiry_whole_days (now k : Z) :
  daysUntilExpiry now (now + k * DAY) = k.
Proof. apply daysUntilExpiry_iff. change DAY with 86400000. lia. Qed.

(** A certificate is past the [diff < 0] test once it expired more than
    half a day ago. *)
Lemma daysUntilExpiry_neg (now expireAt : Z) :
  daysUntilExpiry now expireAt < 0 <-> 2 * (expireAt - now) < - DAY.
Proof.
  pose proof (proj1 (daysUntilExpiry_iff now expireAt _) eq_refl) as B.
  change DAY with 86400000 in *. split; intros H; nia.
Qed.

Lemma daysUntilExpiry_mono (now e1 e2 : Z) :
  e1 <= e2 -> daysUntilExpiry now e1 <= daysUntilExpiry now e2.
Proof.
  intros H. rewrite !daysUntilExpiry_div.
  apply Z.div_le_mono; change DAY with 86400000; lia.
Qed.

Lemma Qle_bool_days (n : Z) :
  Qle_bool 0 (inject_Z n / inject_Z DAY) = (0 <=? n).
Proof.
  apply eq_true_iff_eq. rewrite Qle_bool_iff, Z.leb_le.
  change DAY with 86400000.
  unfold Qle, Qdiv, Qmult, Qinv, inject_Z. cbn [Qnum Qden]. lia.
Qed.

Lemma round_half_away_div (n : Z) :
  Spec.round_half_away (inject_Z n / inject_Z DAY)
  = if 0 <=? n then (2 * n + DAY) / (2 * DAY)
    else - ((2 * - n + DAY) / (2 * DAY)).
Proof.
  unfold Spec.round_half_away. rewrite Qle_bool_days.
  destruct (0 <=? n).
  - apply Math_round_div.
  - f_equal. rewrite <- Math_round_div. unfold Math_round.
    apply Qfloor_comp. change DAY with 86400000.
    unfold Qeq, Qdiv, Qmult, Qplus, Qinv, Qopp, inject_Z. cbn [Qnum Qden]. lia.
Qed.

(** ** Host strings *)

(** [parseInt] on some strings, as a JavaScript engine answers them. *)
Example parseInt_examples :
  ParseInt.parseInt "8443" = Some (JsNumber.Finite 8443) /\
  ParseInt.parseInt "  443" = Some (JsNumber.Finite 443) /\
  ParseInt.parseInt "-5" = Some (JsNumber.Finite (-5)) /\
  ParseInt.parseInt "+5" = Some (JsNumber.Finite 5) /\
  ParseInt.parseInt "12.5" = Some (JsNumber.Finite 12) /\
  ParseInt.parseInt "1e3" = Some (JsNumber.Finite 1) /\
  ParseInt.parseInt "0X1f" = Some (JsNumber.Finite 31) /\
  ParseInt.parseInt "-0x10" = Some (JsNumber.Finite (-16)) /\
  ParseInt.parseInt "0b11" = Some (JsNumber.Finite 0) /\
  ParseInt.parseInt "" = None /\
  ParseInt.parseInt "abc" = None /\
  ParseInt.parseInt "0x" = None /\
  ParseInt.parseInt "- 5" = None.
Proof. repeat split. Qed.

(** Above [2^53] the Number is the nearest binary64 value, and a numeral
    of 310 digits is an infinity. *)
Example parseInt_rounds :
  ParseInt.parseInt "9007199254740992"
  = Some (JsNumber.Finite 9007199254740992) /\
  ParseInt.parseInt "9007199254740993"
  = Some (JsNumber.Finite 9007199254740992) /\
  ParseInt.parseInt "9007199254740995"
  = Some (JsNumber.Finite 9007199254740996) /\
  ParseInt.parseInt "-9007199254740993"
  = Some (JsNumber.Finite (-9007199254740992)) /\
  ParseInt.parseInt "18446744073709551615"
  = Some (JsNumber.Finite 18446744073709551616) /\
  ParseInt.parseInt
    "1000000000000000000000000000000000000000000000000000000000000000000000000000000000000000000000000000000000000000000000000000000000000000000000000000000000000000000000000000000000000000000000000000000000000000000000000000000000000000000000000000000000000000000000000000000000000000000000000000000000000000000000"
  = Some JsNumber.Infinity.
Proof. repeat split; vm_compute; reflexivity. Qed.

(** Up to [2^53] in magnitude an integer is its own Number value. *)
Lemma of_Z_exact (n : Z) :
  Z.abs n <= 9007199254740992 -> JsNumber.of_Z n = JsNumber.Finite n.
Proof.
  intros H. unfold JsNumber.of_Z, JsNumber.round_magnitude.
  destruct (Z.leb_spec (Z.abs n) 9007199254740992) as [_|]; [|lia].
  assert (B : 9007199254740992 < 2 ^ 1024) by (vm_compute; reflexivity).
  destruct (Z.leb_spec (2 ^ 1024) (Z.abs n)) as [|_]; [lia|].
  f_equal. destruct (Z.ltb_spec n 0); lia.
Qed.

Example split_examples :
  JsString.split ":" "a:b:c" = ["a"; "b"; "c"] /\
  JsString.split ":" "example.com" = ["example.com"] /\
  JsString.split ":" ":443" = [""; "443"] /\
  JsString.split ":" "host:" = ["host"; ""] /\
  JsString.split ":" "" = [""].
Proof. repeat split. Qed.

Lemma includes_count (c : ascii) (s : string) :
  JsString.includes c s = negb (JsString.count c s =? 0)%nat.
Proof.
  induction s as [|a s IH]; cbn [JsString.includes JsString.count];
    [reflexivity|].
  destruct (Ascii.eqb a c); [reflexivity|exact IH].
Qed.

Lemma split_none (c : ascii) (s : string) :
  JsString.count c s = 0%nat -> JsString.split c s = [s].
Proof.
  induction s as [|a s IH]; cbn [JsString.split JsString.count];
    [reflexivity|].
  destruct (Ascii.eqb a c); [discriminate|].
  intros H. now rewrite (IH H).
Qed.

Lemma split_once (c : ascii) (s : string) :
  JsString.count c s = 1%nat ->
  exists h p, s = h ++ String c p /\ JsString.split c s = [h; p] /\
              JsString.count c h = 0%nat /\ JsString.count c p = 0%nat.
Proof.
  induction s as [|a s IH]; cbn [JsString.split JsString.count];
    [discriminate|].
  destruct (Ascii.eqb_spec a c) as [->|Hac].
  - intros [= H]. exists "", s. rewrite (split_none c s H). now repeat split.
  - intros H. destruct (IH H) as (h & p & -> & Hs & Hh & Hp).
    exists (String a h), p. rewrite Hs. cbn [JsString.count append].
    destruct (Ascii.eqb_spec a c); [contradiction|]. now repeat split.
Qed.

Lemma split_length (c : ascii) (s : string) :
  List.length (JsString.split c s) = S (JsString.count c s).
Proof.
  induction s as [|a s IH]; cbn [JsString.split JsString.count];
    [reflexivity|].
  destruct (Ascii.eqb a c); cbn [List.length]; [now rewrite IH|].
  destruct (JsString.split c s); [discriminate|exact IH].
Qed.

(** [trim_start] has fuel enough: what it returns starts with no white
    space. *)
Lemma skip_one_space_shorter (s r : string) :
  ParseInt.skip_one_space s = Some r ->
  (String.length r < String.length s)%nat.
Proof.
  unfold ParseInt.skip_one_space.
  destruct s as [|a [|b [|c s]]]; try discriminate;
    repeat match goal with
      | |- context [if ?c then _ else _] => destruct c
      end;
    intros [= <-]; cbn [String.length]; lia.
Qed.

Lemma trim_start_fuel_done (fuel : nat) (s : string) :
  (String.length s <= fuel)%nat ->
  ParseInt.skip_one_space (ParseInt.trim_start_fuel fuel s) = None.
Proof.
  revert s.
  induction fuel as [|fuel IH]; intros s H; cbn [ParseInt.trim_start_fuel].
  - destruct s; [reflexivity|cbn in H; lia].
  - destruct (ParseInt.skip_one_space s) as [r|] eqn:E; [|exact E].
    apply IH. apply skip_one_space_shorter in E. lia.
Qed.

Lemma trim_start_done (s : string) :
  ParseInt.skip_one_space (ParseInt.trim_start s) = None.
Proof. apply trim_start_fuel_done, le_n. Qed.

(** A decimal digit starts no white space, and is no sign and no [x]. *)
Lemma digit_not_space (a : ascii) (d : Z) (r : string) :
  ParseInt.digit_value 10 a = Some d ->
  ParseInt.skip_one_space (String a r) = None.
Proof.
  destruct a as [[] [] [] [] [] [] [] []]; try discriminate; intros _;
    destruct r as [|b [|c r]]; reflexivity.
Qed.

Lemma digit_not_mark (a : ascii) (d : Z) :
  ParseInt.digit_value 10 a = Some d ->
  Ascii.eqb a "-" = false /\ Ascii.eqb a "+" = false /\
  Ascii.eqb a "x" = false /\ Ascii.eqb a "X" = false.
Proof.
  destruct a as [[] [] [] [] [] [] [] []]; try discriminate; intros _;
    repeat split.
Qed.

Lemma leading_digits_length (radix : Z) (s : string) :
  (List.length (ParseInt.leading_digits radix s) <= String.length s)%nat.
Proof.
  induction s as [|a s IH]; cbn [ParseInt.leading_digits]; [apply le_n|].
  destruct (ParseInt.digit_value radix a); cbn [List.length String.length]; lia.
Qed.

(** A string of decimal digits is read by [parseInt]'s steps 9 to 13 as
    the integer it denotes. *)
Lemma magnitude_decimal (s : string) (n : Z) :
  ParseInt.decimal s = Some n ->
  ParseInt.magnitude s = Some n /\
  exists a r d, s = String a r /\ ParseInt.digit_value 10 a = Some d.
Proof.
  unfold ParseInt.decimal, ParseInt.magnitude.
  destruct s as [|a r]; [discriminate|].
  cbn [ParseInt.leading_digits].
  destruct (ParseInt.digit_value 10 a) as [d|] eqn:Da; [|discriminate].
  intros H. split; [|now exists a, r, d].
  destruct (digit_not_mark a d Da) as (_ & _ & _ & _).
  assert (P : (if Ascii.eqb a "0"
               then match r with
                    | String b _ => Ascii.eqb b "x" || Ascii.eqb b "X"
                    | EmptyString => false
                    end
               else false) = false).
  { destruct (Ascii.eqb a "0"); [|reflexivity].
    destruct r as [|b r']; [reflexivity|].
    revert H. cbn [ParseInt.leading_digits].
    destruct (ParseInt.digit_value 10 b) as [d'|] eqn:Db.
    - intros _. destruct (digit_not_mark b d' Db) as (_ & _ & -> & ->).
      reflexivity.
    - cbn [List.length String.length]. discriminate. }
  destruct r as [|b r'].
  - cbn [ParseInt.leading_digits] in *.
    revert H. cbn [List.length String.length Nat.eqb]. intros [= <-].
    rewrite Da. reflexivity.
  - destruct (Ascii.eqb a "0"); cbn [andb] in *.
    + rewrite P. cbn [ParseInt.leading_digits]. rewrite Da.
      revert H. cbn [ParseInt.leading_digits].
      destruct (List.length _ =? String.length _)%nat; [|discriminate].
      now intros [= <-].
    + cbn [ParseInt.leading_digits]. rewrite Da.
      revert H. cbn [ParseInt.leading_digits].
      destruct (List.length _ =? String.length _)%nat; [|discriminate].
      now intros [= <-].
Qed.

Lemma sign_not_space (r : string) :
  ParseInt.skip_one_space (String "-" r) = None /\
  ParseInt.skip_one_space (String "+" r) = None.
Proof. destruct r as [|b [|c r]]; split; reflexivity. Qed.

(** Whatever the specification calls a base-10 integer, [parseInt] reads
    as that integer. *)
Lemma mathInt_base10 (p : string) (n : Z) :
  Spec.base10_integer p = Some n -> ParseInt.mathInt p = Some n.
Proof.
  unfold Spec.base10_integer, ParseInt.mathInt, ParseInt.trim_start.
  destruct p as [|a r]; [discriminate|].
  cbn [String.length ParseInt.trim_start_fuel].
  destruct (Ascii.eqb_spec a "-") as [->|Hm].
  - rewrite (proj1 (sign_not_space r)). cbn [Ascii.eqb Bool.eqb].
    destruct (ParseInt.decimal r) as [m|] eqn:D; [|discriminate].
    intros [= <-]. now destruct (magnitude_decimal _ _ D) as [-> _].
  - destruct (Ascii.eqb_spec a "+") as [->|Hp].
    + rewrite (proj2 (sign_not_space r)). cbn [Ascii.eqb Bool.eqb].
      intros D. now destruct (magnitude_decimal _ _ D) as [-> _].
    + intros D. destruct (magnitude_decimal _ _ D) as (M & a' & r' & d & E & Da).
      injection E as <- <-.
      rewrite (digit_not_space a d r Da).
      apply Ascii.eqb_neq in Hm, Hp. rewrite Hm, Hp. exact M.
Qed.

Lemma parseInt_base10 (p : string) (n : Z) :
  Spec.base10_integer p = Some n ->
  ParseInt.parseInt p = Some (JsNumber.of_Z n).
Proof.
  intros H. unfold ParseInt.parseInt. now rewrite (mathInt_base10 p n H).
Qed.

(** ** Sorting *)

Example sort_example :
  sort [("a", 30); ("b", 10); ("c", 30); ("d", 0); ("e", 10)]
  = [("d", 0); ("b", 10); ("e", 10); ("a", 30); ("c", 30)].
Proof. reflexivity. Qed.

Lemma insert_perm (x : Item) (l : list Item) : Permutation (insert x l) (x :: l).
Proof.
  induction l as [|y l IH]; cbn [insert].
  - reflexivity.
  - destruct (snd x <=? snd y).
    + reflexivity.
    + rewrite IH. apply perm_swap.
Qed.

Lemma sort_perm (l : list Item) : Permutation (sort l) l.
Proof.
  induction l as [|x l IH]; cbn [sort].
  - constructor.
  - rewrite insert_perm. now constructor.
Qed.

Lemma insert_sorted (x : Item) (l : list Item) :
  StronglySorted by_expiry l -> StronglySorted by_expiry (insert x l).
Proof.
  induction 1 as [|y l Hs IH Hy]; cbn [insert].
  - repeat constructor.
  - destruct (Z.leb_spec (snd x) (snd y)) as [Hle|Hgt].
    + constructor; [now constructor|].
      constructor; [exact Hle|].
      eapply Forall_impl; [|exact Hy].
      unfold by_expiry. intros z Hz. lia.
    + constructor; [exact IH|].
      apply (Permutation_Forall (Permutation_sym (insert_perm x l))).
      constructor; [unfold by_expiry; lia | exact Hy].
Qed.

Lemma sort_sorted (l : list Item) : StronglySorted by_expiry (sort l).
Proof.
  induction l as [|x l IH]; cbn [sort].
  - constructor.
  - now apply insert_sorted.
Qed.

(** Stability: items with the same expiry keep the order they came in. *)
Lemma insert_stable (t : Z) (x : Item) (l : list Item) :
  filter (fun it => snd it =? t) (insert x l)
  = filter (fun it => snd it =? t) (x :: l).
Proof.
  induction l as [|y l IH]; cbn [insert].
  - reflexivity.
  - destruct (Z.leb_spec (snd x) (snd y)) as [Hle|Hgt]; [reflexivity|].
    cbn [filter] in *. rewrite IH.
    destruct (Z.eqb_spec (snd x) t) as [Hx|Hx];
      destruct (Z.eqb_spec (snd y) t) as [Hy|Hy]; try reflexivity.
    lia.
Qed.

Lemma sort_stable (t : Z) (l : list Item) :
  filter (fun it => snd it =? t) (sort l) = filter (fun it => snd it =? t) l.
Proof.
  induction l as [|x l IH]; cbn [sort].
  - reflexivity.
  - rewrite insert_stable. cbn [filter]. now rewrite IH.
Qed.

Lemma filter_sorted (f : Item -> bool) (l : list Item) :
  StronglySorted by_expiry l -> StronglySorted by_expiry (filter f l).
Proof.
  induction 1 as [|y l Hs IH Hy]; cbn [filter].
  - constructor.
  - destruct (f y); [|exact IH].
    constructor; [exact IH|].
    apply Forall_forall. intros z Hz. apply filter_In in Hz.
    rewrite Forall_forall in Hy. now apply Hy.
Qed.

(** ** The loop *)

Section LoopFacts.

Variable w : World.
Variable now : Z.

Lemma loop_body_acc (content : list Line) (needNotify : bool) (item : Item) :
  loop_body w now (content, needNotify) item
  = ((content ++ entry w now item)%list, needNotify || trigger now item).
Proof.
  destruct item as [h e]. unfold entry, trigger, loop_body, push.
  cbn [fst snd]. fold (daysUntilExpiry now e).
  destruct (daysUntilExpiry now e <? 0); [reflexivity|].
  destruct (daysUntilExpiry now e <? 30); [reflexivity|].
  now rewrite app_nil_r.
Qed.

Lemma fold_loop_body (items : list Item) (content : list Line) (b : bool) :
  fold_left (loop_body w now) items (content, b)
  = ((content ++ flat_map (entry w now) items)%list,
     b || existsb (trigger now) items).
Proof.
  revert content b.
  induction items as [|it items IH]; intros content b; cbn [fold_left flat_map existsb].
  - now rewrite app_nil_r, orb_false_r.
  - rewrite loop_body_acc, IH, <- app_assoc, orb_assoc. reflexivity.
Qed.

Lemma classify_loop_eq (items : list Item) :
  classify_loop w now items
  = (flat_map (entry w now) items, existsb (trigger now) items).
Proof. unfold classify_loop. now rewrite fold_loop_body. Qed.

Lemma entry_eq (item : Item) :
  entry w now item
  = if reportable now item then [(fst item, displayText w now item)] else [].
Proof.
  destruct item as [h e].
  unfold entry, reportable, displayText, loop_body, push. cbn [fst snd].
  fold (daysUntilExpiry now e). case_days.
Qed.

Lemma content_eq (items : list Item) :
  flat_map (entry w now) items
  = map (fun it => (fst it, displayText w now it))
        (filter (reportable now) items).
Proof.
  induction items as [|it items IH]; cbn [flat_map filter]; [reflexivity|].
  rewrite entry_eq, IH. now destruct (reportable now it).
Qed.

Lemma existsb_perm (f : Item -> bool) (l l' : list Item) :
  Permutation l l' -> existsb f l = existsb f l'.
Proof.
  induction 1 as [|x l l' _ IH|x y l|l l' l'' _ IH1 _ IH2]; cbn [existsb].
  - reflexivity.
  - now rewrite IH.
  - now rewrite !orb_assoc, (orb_comm (f y)).
  - now rewrite IH1.
Qed.

End LoopFacts.

(** ** One run *)

Lemma bind_ok {A B} (m : M A) (k : A -> M B) (st : ProcState)
              (t : list Effect) (st' : ProcState) (a : A) :
  m st = {| trace := t; final := st'; result := Ok a |} ->
  bind m k st
  = {| trace := (t ++ trace (k a st'))%list; final := final (k a st');
       result := result (k a st') |}.
Proof. intros E. unfold bind. now rewrite E. Qed.

Lemma bind_err {A B} (m : M A) (k : A -> M B) (st : ProcState)
               (t : list Effect) (st' : ProcState) (e : JsError) :
  m st = {| trace := t; final := st'; result := Err e |} ->
  bind m k st = {| trace := t; final := st'; result := Err e |}.
Proof. intros E. unfold bind. now rewrite E. Qed.

Lemma bind_pending {A B} (m : M A) (k : A -> M B) (st : ProcState)
                   (t : list Effect) (st' : ProcState) :
  m st = {| trace := t; final := st'; result := Pending |} ->
  bind m k st = {| trace := t; final := st'; result := Pending |}.
Proof. intros E. unfold bind. now rewrite E. Qed.

Lemma mails_sent_app (a b : list Effect) :
  mails_sent (a ++ b) = (mails_sent a ++ mails_sent b)%list.
Proof.
  induction a as [|e a IH]; cbn [mails_sent app]; [reflexivity|].
  destruct e; cbn [app]; now rewrite IH.
Qed.

Section RunFacts.

Variable config_json : Config.
Variable w : World.

(** A probe neither reads nor writes the module state. *)
Lemma getExpireTime_run (host : string) (st : ProcState) :
  getExpireTime w host st
  = {| trace := trace (getExpireTime w host initial); final := st;
       result := result (getExpireTime w host initial) |}.
Proof. case_probe. Qed.

(** A probe prints nothing unless it fails, and then it prints its
    error. *)
Lemma getExpireTime_trace (host : string) (st : ProcState) :
  trace (getExpireTime w host st)
  = match result (getExpireTime w host st) with
    | Err e => [ConsoleError e]
    | _ => []
    end.
Proof. case_probe. Qed.

Lemma probe_one_run (h : string) (st : ProcState) :
  probe_one w h st
  = {| trace := trace (getExpireTime w h initial); final := st;
       result := match result (getExpireTime w h initial) with
                 | Ok v => Ok (h, v)
                 | Err e => Err e
                 | Pending => Pending
                 end |}.
Proof.
  unfold probe_one, bind. rewrite (getExpireTime_run h st).
  cbn [result final trace].
  destruct (result (getExpireTime w h initial)); cbn [result final trace ret];
    [now rewrite app_nil_r|reflexivity|reflexivity].
Qed.

Lemma probe_all_run (hs : list string) (st : ProcState) :
  probe_all w hs st
  = {| trace := trace (probe_all w hs initial); final := st;
       result := result (probe_all w hs initial) |}.
Proof.
  unfold probe_all. revert st.
  induction hs as [|h hs IH]; intros st; cbn [map Promise_all]; [reflexivity|].
  rewrite !probe_one_run. cbn [result final trace].
  rewrite (IH st). cbn [result final trace]. reflexivity.
Qed.

Lemma probe_all_no_mail (hs : list string) (st : ProcState) :
  mails_sent (trace (probe_all w hs st)) = [].
Proof.
  rewrite probe_all_run. cbn [trace]. unfold probe_all.
  induction hs as [|h hs IH]; cbn [map Promise_all]; [reflexivity|].
  rewrite probe_one_run. cbn [trace final]. rewrite mails_sent_app, IH, app_nil_r.
  rewrite (getExpireTime_trace h initial).
  destruct (result (getExpireTime w h initial)); reflexivity.
Qed.

(** When every probe succeeds nothing is printed, and the results come in
    the order of the hosts. *)
Lemma probe_all_ok (hs : list string) (items : list Item) :
  result (probe_all w hs initial) = Ok items ->
  trace (probe_all w hs initial) = [] /\ map fst items = hs /\
  Forall (fun it => result (getExpireTime w (fst it) initial) = Ok (snd it))
         items.
Proof.
  unfold probe_all. revert items.
  induction hs as [|h hs IH]; intros items; cbn [map Promise_all].
  - cbn. intros [= <-]. repeat split. constructor.
  - rewrite probe_one_run. cbn [result trace final].
    rewrite (getExpireTime_trace h initial).
    destruct (result (getExpireTime w h initial)) as [v|e|] eqn:E;
      destruct (result (Promise_all _ initial)) as [l|e'|] eqn:E';
      try discriminate.
    intros [= <-]. destruct (IH l eq_refl) as (T' & M' & F').
    rewrite T'. cbn [map fst snd]. repeat split; [now rewrite M'|].
    constructor; [exact E|exact F'].
Qed.

(** While no probe has failed nothing is printed. *)
Lemma probe_all_quiet (hs : list string) :
  match result (probe_all w hs initial) with
  | Err _ => True
  | _ => trace (probe_all w hs initial) = []
  end.
Proof.
  unfold probe_all.
  induction hs as [|h hs IH]; cbn [map Promise_all]; [reflexivity|].
  rewrite probe_one_run. cbn [result trace final].
  rewrite (getExpireTime_trace h initial).
  destruct (result (getExpireTime w h initial)) as [v|e|];
    destruct (result (Promise_all _ initial)) as [l|e'|];
    try exact I; now rewrite IH.
Qed.

(** A failing probe fails the whole batch, whatever the others do. *)
Lemma probe_all_err (hs : list string) (h : string) (e : JsError) :
  In h hs -> result (getExpireTime w h initial) = Err e ->
  exists e', result (probe_all w hs initial) = Err e'.
Proof.
  unfold probe_all.
  induction hs as [|h' hs IH]; [intros []|].
  intros [->|Hin] He; cbn [map Promise_all]; rewrite probe_one_run;
    cbn [result final].
  - rewrite He. now exists e.
  - destruct (IH Hin He) as [e' ->].
    destruct (result (getExpireTime w h' initial)) as [v|e0|];
      [now exists e'|now exists e0|now exists e'].
Qed.

Lemma getConfig_run (st : ProcState) :
  reachable config_json st ->
  getConfig config_json st
  = {| trace := []; final := {| _config := Some config_json |};
       result := Ok config_json |}.
Proof. intros [->| ->]; reflexivity. Qed.

Lemma checkAll_run (st : ProcState) :
  reachable config_json st ->
  checkAll config_json w st = run_view config_json w.
Proof.
  intros R. unfold checkAll, run_view.
  rewrite (bind_ok _ _ st [ConsoleLog "checking all hosts..."] st tt eq_refl).
  rewrite (bind_ok _ _ st [] _ config_json (getConfig_run st R)).
  cbn [result final trace app].
  destruct (result (probe_all w (hosts config_json) initial))
    as [items|e|] eqn:E.
  - destruct (probe_all_ok _ _ E) as (T & _ & _).
    rewrite (bind_ok _ _ _ [] {| _config := Some config_json |} items).
    2:{ rewrite probe_all_run, T, E. reflexivity. }
    cbn [result final trace app].
    rewrite classify_loop_eq.
    rewrite (existsb_perm (trigger (Date_now w)) _ _ (sort_perm items)).
    destruct (existsb (trigger (Date_now w)) items); [|reflexivity].
    unfold sendMailToMe.
    rewrite (bind_ok _ _ _ [] _ config_json
               (getConfig_run _ (or_intror eq_refl))).
    cbn [result final trace app].
    fold (transport_of config_json).
    fold (subject_of (flat_map (entry w (Date_now w)) (sort items))).
    fold (mail_of config_json
            (subject_of (flat_map (entry w (Date_now w)) (sort items)))
            (convertToHTMLList (flat_map (entry w (Date_now w)) (sort items)))).
    erewrite bind_ok by reflexivity.
    destruct (mailer_sendMail w _ _); reflexivity.
  - rewrite (bind_err _ _ _ (trace (probe_all w (hosts config_json) initial))
               {| _config := Some config_json |} e).
    2:{ rewrite probe_all_run, E. reflexivity. }
    reflexivity.
  - rewrite (bind_pending _ _ _
               (trace (probe_all w (hosts config_json) initial))
               {| _config := Some config_json |}).
    2:{ rewrite probe_all_run, E. reflexivity. }
    reflexivity.
Qed.

End RunFacts.

(** ** The mail body *)

Lemma append_assoc (a b c : string) : (a ++ b) ++ c = a ++ b ++ c.
Proof. induction a as [|x a IH]; cbn; [reflexivity|now rewrite IH]. Qed.

Lemma append_nil_r (a : string) : a ++ "" = a.
Proof. induction a as [|x a IH]; cbn; [reflexivity|now rewrite IH]. Qed.

Lemma convertToHTMLList_eq (content : list Line) :
  convertToHTMLList content
  = "<ul>" ++ fold_right append "" (map li content) ++ "</ul>".
Proof.
  unfold convertToHTMLList.
  assert (F : forall acc,
             fold_left
               (fun htmlString item =>
                  htmlString ++ "<li><strong>" ++ fst item ++ "</strong>: "
                  ++ snd item ++ "</li>")
               content acc
             = acc ++ fold_right append "" (map li content)).
  { induction content as [|l content IH]; intros acc; cbn [fold_left map fold_right].
    - now rewrite append_nil_r.
    - rewrite IH. fold (li l). now rewrite append_assoc. }
  rewrite F. now rewrite append_assoc.
Qed.

(** ** The process *)

Lemma fires_daily (t : Cron.LocalTime) :
  Cron.fires "0 10 * * *" t = Some (ten_o_clock t).
Proof.
  unfold Cron.fires.
  change (map Cron.parse_field (JsString.split " " "0 10 * * *"))
    with [Some (Cron.Exactly 0); Some (Cron.Exactly 10); Some Cron.Any;
          Some Cron.Any; Some Cron.Any].
  cbn [Cron.field_matches]. unfold ten_o_clock. f_equal.
  destruct (Cron.second t =? 0), (Cron.minute t =? 0), (Cron.hour t =? 10);
    reflexivity.
Qed.

(** The pattern is due at one second of every day. *)
Lemma fires_once_a_day (dom mo dow : Z) :
  filter (fun t => match Cron.fires "0 10 * * *" t with
                   | Some b => b
                   | None => false
                   end)
         (Cron.seconds_of_day dom mo dow)
  = [ {| Cron.second := 0; Cron.minute := 0; Cron.hour := 10;
         Cron.dayOfMonth := dom; Cron.month := mo; Cron.dayOfWeek := dow |} ].
Proof. vm_compute. reflexivity. Qed.

Lemma checkAll_final (config : Config) (w : World) (st : ProcState) :
  reachable config st -> reachable config (final (checkAll config w st)).
Proof.
  intros R. rewrite (checkAll_run config w st R). right. unfold run_view.
  destruct (result (probe_all w (hosts config) initial)); try reflexivity.
  destruct (existsb _ _); [|reflexivity].
  destruct (mailer_sendMail w _ _); reflexivity.
Qed.

(** What earlier runs left in the module state does not show in a run. *)
Lemma checkAll_fresh (config : Config) (w : World) (st : ProcState) :
  reachable config st ->
  trace (checkAll config w st) = trace (checkAll config w initial) /\
  result (checkAll config w st) = result (checkAll config w initial).
Proof.
  intros R.
  rewrite (checkAll_run config w st R).
  rewrite (checkAll_run config w initial (or_introl eq_refl)). now split.
Qed.

Lemma run_ticks_daily (config : Config) (timeline : list Tick)
                      (st : ProcState) :
  reachable config st ->
  run_ticks config
    {| cronTime := "0 10 * * *"; start := true; timeZone := "Asia/Shanghai" |}
    timeline st
  = List.concat
      (map (fun t => trace (checkAll config (world t) initial))
           (filter (fun t => ten_o_clock (wall_clock t "Asia/Shanghai"))
                   timeline)).
Proof.
  revert st. induction timeline as [|t timeline IH]; intros st R;
    cbn [run_ticks filter map List.concat cronTime timeZone]; [reflexivity|].
  rewrite fires_daily.
  destruct (ten_o_clock (wall_clock t "Asia/Shanghai")); cbn [map List.concat].
  - rewrite (IH _ (checkAll_final config (world t) st R)).
    now rewrite (proj1 (checkAll_fresh config (world t) st R)).
  - now apply IH.
Qed.

(** * The claims *)

(** C1.  One iteration of the loop, for a host whose probe gave the expiry
    [e], with [d = daysUntilExpiry now e]: when [d < 0] it pushes the host
    with the fixed already-expired marker (tier EXPIRED); when
    [0 <= d < 30] it pushes the host with the phrase [moment(e).fromNow()]
    followed by the expiry suffix (tier URGENT_OR_SOON); when [d >= 30] it
    pushes nothing (tier OK).  The report is exactly what the iterations
    push, so an OK host is not in it. *)
Theorem C1_three_tiers (w : World) (now : Z) (content : list Line)
                       (needNotify : bool) (host : string) (e : Z)
                       (items : list Item) :
  (daysUntilExpiry now e < 0 ->
   fst (loop_body w now (content, needNotify) (host, e))
   = push content (host, EXPIRED_TEXT)) /\
  (0 <= daysUntilExpiry now e < 30 ->
   fst (loop_body w now (content, needNotify) (host, e))
   = push content (host, moment_fromNow w e ++ "过期")) /\
  (30 <= daysUntilExpiry now e ->
   fst (loop_body w now (content, needNotify) (host, e)) = content) /\
  fst (classify_loop w now items)
  = flat_map (fun item => fst (loop_body w now ([], false) item)) items.
Proof.
  assert (B : fst (loop_body w now (content, needNotify) (host, e))
              = if daysUntilExpiry now e <? 0
                then push content (host, EXPIRED_TEXT)
                else if daysUntilExpiry now e <? 30
                then push content (host, moment_fromNow w e ++ "过期")
                else content).
  { unfold loop_body. fold (daysUntilExpiry now e). reflexivity. }
  rewrite B. repeat split.
  - intros H. case_days.
  - intros [H0 H30]. case_days.
  - intros H. case_days.
  - rewrite classify_loop_eq. reflexivity.
Qed.

(** C1 at three hosts of the demo world: five days overdue, five days
    left, forty-five days left. *)
Lemma C1_three_tiers_witness :
  fst (loop_body demo_world demo_now ([], false)
         ("a.example", demo_now - 5 * DAY))
  = [("a.example", EXPIRED_TEXT)] /\
  fst (loop_body demo_world demo_now ([], false)
         ("b.example", demo_now + 5 * DAY))
  = [("b.example", "in some time过期")] /\
  fst (loop_body demo_world demo_now ([], false)
         ("c.example", demo_now + 45 * DAY))
  = [].
Proof.
  split; [|split].
  - destruct (C1_three_tiers demo_world demo_now [] false "a.example"
                (demo_now - 5 * DAY) []) as (H & _).
    apply H. vm_compute. reflexivity.
  - destruct (C1_three_tiers demo_world demo_now [] false "b.example"
                (demo_now + 5 * DAY) []) as (_ & H & _).
    apply H. split; vm_compute; [discriminate|reflexivity].
  - destruct (C1_three_tiers demo_world demo_now [] false "c.example"
                (demo_now + 45 * DAY) []) as (_ & _ & H & _).
    apply H. vm_compute. discriminate.
Defined.

(** C2.  In a run whose probes all answered, [needNotify] after the loop
    is the OR over the hosts of [daysUntilExpiry <= 14], and the mail is
    sent exactly when it is true.  A host with [daysUntilExpiry <= 14] has
    its line in the report; a host with [14 < daysUntilExpiry < 30] has its
    line in the report and contributes [false]. *)
Theorem C2_notify_is_or (config : Config) (w : World) (items : list Item) :
  result (probe_all w (hosts config) initial) = Ok items ->
  snd (classify_loop w (Date_now w) (sort items))
  = existsb (fun it => daysUntilExpiry (Date_now w) (snd it) <=? 14) items /\
  (mails_sent (trace (checkAll config w initial)) <> []
   <-> snd (classify_loop w (Date_now w) (sort items)) = true) /\
  (forall it, In it items ->
     daysUntilExpiry (Date_now w) (snd it) <= 14 ->
     In (fst it, displayText w (Date_now w) it)
        (fst (classify_loop w (Date_now w) (sort items)))) /\
  (forall it, In it items ->
     14 < daysUntilExpiry (Date_now w) (snd it) < 30 ->
     (daysUntilExpiry (Date_now w) (snd it) <=? 14) = false /\
     In (fst it, displayText w (Date_now w) it)
        (fst (classify_loop w (Date_now w) (sort items)))).
Proof.
  intros E. set (now := Date_now w).
  assert (Hin : forall it, In it items -> daysUntilExpiry now (snd it) < 30 ->
            In (fst it, displayText w now it)
               (fst (classify_loop w now (sort items)))).
  { intros it Hit Hd. rewrite classify_loop_eq, content_eq. cbn [fst].
    apply (in_map (fun it => (fst it, displayText w now it))).
    apply filter_In. split.
    - apply (Permutation_in _ (Permutation_sym (sort_perm items))), Hit.
    - unfold reportable. now apply Z.ltb_lt. }
  assert (Hor : snd (classify_loop w now (sort items))
                = existsb (trigger now) items).
  { rewrite classify_loop_eq. cbn [snd].
    apply existsb_perm, sort_perm. }
  split; [exact Hor|]. split; [|split].
  - rewrite Hor, (checkAll_run config w initial (or_introl eq_refl)).
    unfold run_view. rewrite E. fold now.
    destruct (existsb (trigger now) items).
    + destruct (mailer_sendMail w _ _); cbn; split; intros; congruence.
    + cbn. split; intros; congruence.
  - intros it Hit Hd. apply Hin; [exact Hit|lia].
  - intros it Hit Hd. split; [apply Z.leb_gt; lia|apply Hin; [exact Hit|lia]].
Qed.

(** C2 on two runs of the demo world: one over a host with ten days left
    and a host with an expired certificate, which notifies, and one over a
    host with twenty days left, which is reported and does not notify. *)
Lemma C2_notify_is_or_witness :
  snd (classify_loop demo_world (Date_now demo_world)
         (sort [("a.example", demo_now + 10 * DAY); ("expired.example", 0)]))
  = true /\
  (snd (classify_loop demo_world (Date_now demo_world)
          (sort [("later.example", demo_now + 20 * DAY)]))
   = false /\
   In ("later.example", "in some time过期")
      (fst (classify_loop demo_world (Date_now demo_world)
              (sort [("later.example", demo_now + 20 * DAY)])))).
Proof.
  split.
  - destruct (C2_notify_is_or (demo_config ["a.example"; "expired.example"])
                demo_world
                [("a.example", demo_now + 10 * DAY); ("expired.example", 0)]
                eq_refl) as [H _].
    rewrite H. vm_compute. reflexivity.
  - destruct (C2_notify_is_or (demo_config ["later.example"]) demo_world
                [("later.example", demo_now + 20 * DAY)] eq_refl)
      as (H & _ & _ & H').
    split; [rewrite H; vm_compute; reflexivity|].
    apply (H' ("later.example", demo_now + 20 * DAY)).
    + left. reflexivity.
    + split; vm_compute; reflexivity.
Defined.

(** C3, as the code has it.  A host string with no colon is taken whole,
    with port 443.  One with exactly one colon is cut at the colon into a
    host name and a port substring, and the result is decided by
    [parseInt] on the port substring: an invalid-host error when it gives
    NaN, the host name and the Number read otherwise.  Every port
    substring that is a base-10 integer is accepted, as the Number value
    of that integer: the integer itself up to [2^53] in magnitude, the
    nearest binary64 value above.  [parseInt] accepts more than base-10
    integers.  A host string with two colons or more is an invalid-host
    error. *)
Theorem C3_host_and_port (raw : string) :
  (JsString.count ":" raw = 0%nat ->
   tslConnect_target raw = Returns (raw, JsNumber.Finite 443)) /\
  (JsString.count ":" raw = 1%nat ->
   exists h p,
     raw = h ++ ":" ++ p /\
     JsString.count ":" h = 0%nat /\ JsString.count ":" p = 0%nat /\
     tslConnect_target raw
     = match ParseInt.parseInt p with
       | Some n => Returns (h, n)
       | None => Throws (Error ("invalid host: " ++ h))
       end /\
     (forall n, Spec.base10_integer p = Some n ->
                tslConnect_target raw = Returns (h, JsNumber.of_Z n) /\
                (Z.abs n <= 9007199254740992 ->
                 tslConnect_target raw = Returns (h, JsNumber.Finite n)))) /\
  ((2 <= JsString.count ":" raw)%nat ->
   tslConnect_target raw = Throws (Error ("invalid host: " ++ raw))).
Proof.
  unfold tslConnect_target. rewrite includes_count.
  split; [|split].
  - intros ->. reflexivity.
  - intros H. rewrite H. cbn [Nat.eqb negb].
    destruct (split_once ":" raw H) as (h & p & -> & -> & Hh & Hp).
    exists h, p.
    split; [reflexivity|]. split; [exact Hh|]. split; [exact Hp|].
    split; [reflexivity|].
    intros n Hn. rewrite (parseInt_base10 p n Hn). split; [reflexivity|].
    intros B. now rewrite of_Z_exact.
  - intros H. pose proof (split_length ":" raw) as L.
    destruct (JsString.count ":" raw) as [|[|k]] eqn:C; [lia|lia|].
    cbn [Nat.eqb negb].
    destruct (JsString.split ":" raw) as [|a [|b [|c l]]]; try discriminate L;
      reflexivity.
Qed.

(** C3 on three host strings: no colon, one colon, two colons. *)
Lemma C3_host_and_port_witness :
  tslConnect_target "example.com"
  = Returns ("example.com", JsNumber.Finite 443) /\
  (exists h p,
     "example.com:8443" = h ++ ":" ++ p /\
     tslConnect_target "example.com:8443"
     = match ParseInt.parseInt p with
       | Some n => Returns (h, n)
       | None => Throws (Error ("invalid host: " ++ h))
       end) /\
  tslConnect_target "a:b:c" = Throws (Error "invalid host: a:b:c").
Proof.
  split; [|split].
  - destruct (C3_host_and_port "example.com") as (H & _).
    apply H. reflexivity.
  - destruct (C3_host_and_port "example.com:8443") as (_ & H & _).
    destruct (H eq_refl) as (h & p & E & _ & _ & T & _).
    exists h, p. split; [exact E|exact T].
  - destruct (C3_host_and_port "a:b:c") as (_ & _ & H).
    apply H. vm_compute. lia.
Defined.

(** The specification's four examples. *)
Example C3_spec_examples :
  tslConnect_target "example.com"
  = Returns ("example.com", JsNumber.Finite 443) /\
  tslConnect_target "example.com:8443"
  = Returns ("example.com", JsNumber.Finite 8443) /\
  tslConnect_target "example.com:abc"
  = Throws (Error "invalid host: example.com") /\
  tslConnect_target "a:b:c" = Throws (Error "invalid host: a:b:c").
Proof. repeat split. Qed.

(** C3 as the specification words it fails on "example.com:0x1F": the
    port substring is no base-10 integer, and the code accepts it, reading
    it in base 16. *)
Lemma C3_counterexample :
  ~ (forall raw h p,
       raw = h ++ ":" ++ p ->
       JsString.count ":" raw = 1%nat ->
       Spec.base10_integer p = None ->
       exists e, tslConnect_target raw = Throws e).
Proof.
  intros H.
  destruct (H "example.com:0x1F" "example.com" "0x1F" eq_refl eq_refl eq_refl)
    as [e He].
  vm_compute in He. discriminate.
Qed.

(** Port substrings that [parseInt] accepts and that are no base-10
    integers: a hexadecimal numeral, digits followed by other text,
    digits after white space.  And a base-10 integer above [2^53], which
    reaches [tls.connect] as the binary64 value next to it. *)
Example C3_accepted_ports :
  tslConnect_target "example.com:0x1F"
  = Returns ("example.com", JsNumber.Finite 31) /\
  tslConnect_target "example.com:80abc"
  = Returns ("example.com", JsNumber.Finite 80) /\
  tslConnect_target "example.com: 80"
  = Returns ("example.com", JsNumber.Finite 80) /\
  Spec.base10_integer "0x1F" = None /\
  Spec.base10_integer "80abc" = None /\
  Spec.base10_integer " 80" = None /\
  Spec.base10_integer "9007199254740993" = Some 9007199254740993 /\
  tslConnect_target "example.com:9007199254740993"
  = Returns ("example.com", JsNumber.Finite 9007199254740992).
Proof. repeat split; vm_compute; reflexivity. Qed.

(** C4, as the code has it.  When the connection fails with an error whose
    message is exactly "certificate has expired", [getExpireTime] resolves
    with 0, the start of the epoch, and prints nothing.  The loop then
    treats the host like any other: once [now] is more than half a day
    past the epoch the day count is negative, so the host gets the
    already-expired marker; and for every [now] at or after the epoch the
    host contributes [true] to [needNotify]. *)
Theorem C4_sentinel_is_epoch (w : World) (host : string) (e : JsError)
                             (st : ProcState) (now : Z)
                             (content : list Line) (needNotify : bool) :
  result (tslConnect w host st) = Err e ->
  message e = "certificate has expired" ->
  getExpireTime w host st = {| trace := []; final := st; result := Ok 0 |} /\
  (DAY < 2 * now ->
   loop_body w now (content, needNotify) (host, 0)
   = (push content (host, EXPIRED_TEXT), true)) /\
  (0 <= now ->
   snd (loop_body w now (content, needNotify) (host, 0)) = true).
Proof.
  intros He Hm.
  assert (T : daysUntilExpiry now 0 <= 14 \/ now < 0).
  { destruct (Z.le_gt_cases 0 now) as [H|H]; [left|right; exact H].
    transitivity (daysUntilExpiry now now).
    - now apply daysUntilExpiry_mono.
    - replace now with (now + 0 * DAY) at 2 by lia.
      rewrite daysUntilExpiry_whole_days. lia. }
  split; [|split].
  - unfold getExpireTime, try_catch. rewrite He, Hm. cbn [String.eqb].
    revert He. unfold tslConnect.
    destruct (tslConnect_target host) as [[h p]|e0].
    + destruct (tls_connect w h p); cbn; [discriminate|reflexivity|discriminate].
    + reflexivity.
  - intros Hnow. rewrite loop_body_acc, entry_eq.
    unfold reportable, displayText, trigger. cbn [fst snd].
    assert (N : daysUntilExpiry now 0 < 0) by (apply daysUntilExpiry_neg; lia).
    rewrite orb_comm. case_days.
  - intros Hnow. rewrite loop_body_acc. unfold trigger. cbn [fst snd].
    rewrite orb_comm. case_days.
Qed.

(** C4 in the demo world. *)
Lemma C4_sentinel_is_epoch_witness :
  getExpireTime demo_world "expired.example" initial
  = {| trace := []; final := initial; result := Ok 0 |} /\
  loop_body demo_world demo_now ([], false) ("expired.example", 0)
  = ([("expired.example", EXPIRED_TEXT)], true).
Proof.
  destruct (C4_sentinel_is_epoch demo_world "expired.example"
              (Error "certificate has expired") initial demo_now [] false
              eq_refl eq_refl) as (H1 & H2 & _).
  split; [exact H1|]. apply H2. vm_compute. reflexivity.
Defined.

(** C4 as the specification words it fails one millisecond after the
    epoch: the day count of the sentinel is 0, not negative, so the host
    is given the relative phrase and not the already-expired marker. *)
Lemma C4_counterexample :
  ~ (forall (w : World) (now : Z) (host : string),
       0 < now ->
       fst (loop_body w now ([], false) (host, 0)) = [(host, EXPIRED_TEXT)]).
Proof.
  intros H. specialize (H demo_world 1 "expired.example" eq_refl).
  vm_compute in H. discriminate.
Qed.

(** What the loop does there. *)
Example C4_first_half_day :
  daysUntilExpiry 1 0 = 0 /\
  loop_body demo_world 1 ([], false) ("expired.example", 0)
  = ([("expired.example", moment_fromNow demo_world 0 ++ "过期")], true).
Proof. split; reflexivity. Qed.

(** C5.  In a run whose probes all answered, with [items] the probed
    results in the order of the configured hosts: line 110 sorts all of
    them by ascending expiry before the loop looks at any, so the sorted
    array is ordered, holds the same items and keeps items of equal expiry
    in their original order.  The report the run renders and mails is the
    sorted array with the items of thirty days or more left out, the
    others in the same order, so it is ordered too.  When the hosts answer
    with day offsets 100, -1 and 10, the run mails the host at -1, marked
    expired, then the host at 10 with the relative phrase, and counts 2 in
    the subject. *)
Theorem C5_sorted_then_filtered (config : Config) (w : World)
                                (items : list Item) (a b c : string) :
  result (probe_all w (hosts config) initial) = Ok items ->
  StronglySorted by_expiry (sort items) /\
  Permutation (sort items) items /\
  (forall t, filter (fun it => snd it =? t) (sort items)
             = filter (fun it => snd it =? t) items) /\
  StronglySorted by_expiry (filter (reportable (Date_now w)) (sort items)) /\
  fst (classify_loop w (Date_now w) (sort items))
  = map (fun it => (fst it, displayText w (Date_now w) it))
        (filter (reportable (Date_now w)) (sort items)) /\
  mails_sent (trace (checkAll config w initial))
  = (if existsb (fun it => daysUntilExpiry (Date_now w) (snd it) <=? 14) items
     then [mail_of config
             ("[" ++ JsString.of_nat
                       (List.length
                          (filter (reportable (Date_now w)) (sort items)))
              ++ "🚨] SSL 证书到期检测")
             (convertToHTMLList
                (map (fun it => (fst it, displayText w (Date_now w) it))
                     (filter (reportable (Date_now w)) (sort items))))]
     else []) /\
  (items = [(a, Date_now w + 100 * DAY); (b, Date_now w + (-1) * DAY);
            (c, Date_now w + 10 * DAY)] ->
   mails_sent (trace (checkAll config w initial))
   = [mail_of config "[2🚨] SSL 证书到期检测"
        (convertToHTMLList
           [(b, EXPIRED_TEXT);
            (c, moment_fromNow w (Date_now w + 10 * DAY) ++ "过期")])]).
Proof.
  intros E. set (now := Date_now w).
  assert (R : mails_sent (trace (checkAll config w initial))
              = if existsb (trigger now) items
                then [mail_of config
                        (subject_of (flat_map (entry w now) (sort items)))
                        (convertToHTMLList
                           (flat_map (entry w now) (sort items)))]
                else []).
  { rewrite (checkAll_run config w initial (or_introl eq_refl)).
    unfold run_view. rewrite E. fold now.
    destruct (existsb (trigger now) items); [|reflexivity].
    destruct (mailer_sendMail w _ _); reflexivity. }
  split; [apply sort_sorted|].
  split; [apply sort_perm|].
  split; [intros t; apply sort_stable|].
  split; [apply filter_sorted, sort_sorted|].
  split; [rewrite classify_loop_eq; apply content_eq|].
  split.
  - rewrite R. unfold subject_of. rewrite content_eq, length_map. reflexivity.
  - intros ->. rewrite R.
    assert (S : sort [(a, now + 100 * DAY); (b, now + (-1) * DAY);
                      (c, now + 10 * DAY)]
                = [(b, now + (-1) * DAY); (c, now + 10 * DAY);
                   (a, now + 100 * DAY)]).
    { cbn [sort insert snd]. change DAY with 86400000.
      destruct (Z.leb_spec (now + -1 * 86400000) (now + 10 * 86400000)); [|lia].
      cbn [insert snd].
      destruct (Z.leb_spec (now + 100 * 86400000) (now + -1 * 86400000)); [lia|].
      destruct (Z.leb_spec (now + 100 * 86400000) (now + 10 * 86400000)); [lia|].
      reflexivity. }
    rewrite S. cbn [existsb flat_map]. unfold trigger.
    rewrite !entry_eq. unfold reportable, displayText. cbn [fst snd].
    rewrite !daysUntilExpiry_whole_days. reflexivity.
Qed.

(** C5 on a run over three hosts that answer with day offsets 100, -1 and
    10, configured in that order. *)
Lemma C5_sorted_then_filtered_witness :
  mails_sent
    (trace (checkAll (demo_config ["a.example"; "b.example"; "c.example"])
              offsets_world initial))
  = [mail_of (demo_config ["a.example"; "b.example"; "c.example"])
       "[2🚨] SSL 证书到期检测"
       ("<ul><li><strong>b.example</strong>: " ++ EXPIRED_TEXT
        ++ "</li><li><strong>c.example</strong>: in some time过期"
        ++ "</li></ul>")].
Proof.
  destruct (C5_sorted_then_filtered
              (demo_config ["a.example"; "b.example"; "c.example"])
              offsets_world
              [("a.example", demo_now + 100 * DAY);
               ("b.example", demo_now + (-1) * DAY);
               ("c.example", demo_now + 10 * DAY)]
              "a.example" "b.example" "c.example" eq_refl)
    as (_ & _ & _ & _ & _ & _ & H).
  rewrite (H eq_refl). reflexivity.
Defined.

(** The order of the report is the order of expiry, not the configured
    one: with the same three hosts configured as c, a, b the run mails the
    same report. *)
Example sorted_not_configured_order :
  result (probe_all offsets_world ["c.example"; "a.example"; "b.example"]
            initial)
  = Ok [("c.example", demo_now + 10 * DAY);
        ("a.example", demo_now + 100 * DAY);
        ("b.example", demo_now + (-1) * DAY)] /\
  mails_sent
    (trace (checkAll (demo_config ["c.example"; "a.example"; "b.example"])
              offsets_world initial))
  = [mail_of (demo_config ["c.example"; "a.example"; "b.example"])
       "[2🚨] SSL 证书到期检测"
       ("<ul><li><strong>b.example</strong>: " ++ EXPIRED_TEXT
        ++ "</li><li><strong>c.example</strong>: in some time过期"
        ++ "</li></ul>")].
Proof. split; reflexivity. Qed.

(** C6.  When the connection to one configured host fails with an error
    whose message is not the expired-certificate one, the run rejects and
    hands no mail to the transport, whatever the other probes answered. *)
Theorem C6_one_failure_aborts (config : Config) (w : World) (host : string)
                              (e : JsError) :
  In host (hosts config) ->
  result (tslConnect w host initial) = Err e ->
  message e <> "certificate has expired" ->
  (exists e', result (checkAll config w initial) = Err e') /\
  mails_sent (trace (checkAll config w initial)) = [].
Proof.
  intros Hin He Hm.
  assert (Hp : result (getExpireTime w host initial) = Err e).
  { unfold getExpireTime, try_catch. rewrite He.
    apply String.eqb_neq in Hm. rewrite Hm. reflexivity. }
  destruct (probe_all_err w _ _ _ Hin Hp) as [e' He'].
  rewrite (checkAll_run config w initial (or_introl eq_refl)).
  unfold run_view. rewrite He'. cbn [result trace mails_sent]. split.
  - now exists e'.
  - apply probe_all_no_mail.
Qed.

(** C6 in the demo world: the host that refuses the connection stands
    between two hosts that answer. *)
Lemma C6_one_failure_aborts_witness :
  (exists e',
     result (checkAll (demo_config ["a.example"; "down.example"; "b.example"])
               demo_world initial) = Err e') /\
  mails_sent
    (trace (checkAll (demo_config ["a.example"; "down.example"; "b.example"])
              demo_world initial)) = [].
Proof.
  apply (C6_one_failure_aborts
           (demo_config ["a.example"; "down.example"; "b.example"])
           demo_world "down.example"
           (Error "connect ECONNREFUSED 192.0.2.1:443")).
  - simpl. right. left. reflexivity.
  - reflexivity.
  - simpl. discriminate.
Defined.

(** C7, as the code has it.  The day count is the integer nearest to
    [(e - now) / DAY], a half-day tie going to the larger integer
    ([Math.round]): up for a positive difference and up, toward zero, for
    a negative one.  It agrees with rounding ties away from zero on every
    non-negative difference and off the ties. *)
Theorem C7_round_half_up (now e d k : Z) :
  (daysUntilExpiry now e = d <->
   (2 * d - 1) * DAY <= 2 * (e - now) < (2 * d + 1) * DAY) /\
  daysUntilExpiry now (now + k * DAY + DAY / 2) = k + 1 /\
  (now <= e ->
   daysUntilExpiry now e
   = Spec.round_half_away (inject_Z (e - now) / inject_Z DAY)) /\
  ((2 * (e - now) + DAY) mod (2 * DAY) <> 0 ->
   daysUntilExpiry now e
   = Spec.round_half_away (inject_Z (e - now) / inject_Z DAY)).
Proof.
  split; [apply daysUntilExpiry_iff|].
  split; [apply daysUntilExpiry_iff; change DAY with 86400000;
          change (86400000 / 2) with 43200000; lia|].
  split.
  - intros H. rewrite round_half_away_div, daysUntilExpiry_div.
    destruct (Z.leb_spec 0 (e - now)); [reflexivity|lia].
  - intros H. rewrite round_half_away_div, daysUntilExpiry_div.
    destruct (Z.leb_spec 0 (e - now)); [reflexivity|].
    change DAY with 86400000 in *.
    pose proof (Z.div_mod (2 * (e - now) + 86400000) (2 * 86400000)
                  ltac:(lia)) as E1.
    pose proof (Z.mod_pos_bound (2 * (e - now) + 86400000) (2 * 86400000)
                  ltac:(lia)) as B1.
    symmetry. apply Z.opp_inj. rewrite Z.opp_involutive. symmetry.
    apply Z.div_unique with
      (r := 2 * 86400000
            - (2 * (e - now) + 86400000) mod (2 * 86400000)); lia.
Qed.

(** C7 at a tie on each side of zero, and at a negative difference off
    the ties. *)
Lemma C7_round_half_up_witness :
  daysUntilExpiry 0 (5 * DAY / 2) = 3 /\
  daysUntilExpiry (3 * DAY / 2) 0 = -1 /\
  daysUntilExpiry 0 (5 * DAY / 2)
  = Spec.round_half_away (inject_Z (5 * DAY / 2 - 0) / inject_Z DAY) /\
  daysUntilExpiry (5 * DAY / 3) 0
  = Spec.round_half_away (inject_Z (0 - 5 * DAY / 3) / inject_Z DAY).
Proof.
  split; [|split; [|split]].
  - destruct (C7_round_half_up 0 (5 * DAY / 2) 3 0) as ([_ H] & _).
    apply H. vm_compute. split; [discriminate|reflexivity].
  - destruct (C7_round_half_up (3 * DAY / 2) 0 (-1) 0) as ([_ H] & _).
    apply H. vm_compute. split; [discriminate|reflexivity].
  - destruct (C7_round_half_up 0 (5 * DAY / 2) 0 0) as (_ & _ & H & _).
    apply H. vm_compute. discriminate.
  - destruct (C7_round_half_up (5 * DAY / 3) 0 0 0) as (_ & _ & _ & H).
    apply H. vm_compute. discriminate.
Defined.

(** C7 as the specification words it fails: one and a half days before
    [now] the code counts -1, and both rounding modes it names give -2. *)
Lemma C7_counterexample :
  ~ ((forall now e,
        daysUntilExpiry now e
        = Spec.round_half_away (inject_Z (e - now) / inject_Z DAY)) \/
     (forall now e,
        daysUntilExpiry now e
        = Spec.round_half_even (inject_Z (e - now) / inject_Z DAY))).
Proof.
  intros [H|H]; specialize (H 129600000 0); vm_compute in H; discriminate.
Qed.

(** The three values at that instant. *)
Example C7_tie_values :
  daysUntilExpiry 129600000 0 = -1 /\
  Spec.round_half_away (inject_Z (0 - 129600000) / inject_Z DAY) = -2 /\
  Spec.round_half_even (inject_Z (0 - 129600000) / inject_Z DAY) = -2.
Proof. repeat split. Qed.

(** C8.  Every mail a run hands to the transport has the subject
    "[n🚨] SSL 证书到期检测", [n] being the number of reportable hosts, and
    as body a [<ul>] element holding one [<li>] per reportable host, in the
    sorted order: the host name in [<strong>], a colon, a space and the
    display text, which for an expired certificate is the red [<span>]. *)
Theorem C8_mail_format (config : Config) (w : World) (m : Mail) :
  In m (mails_sent (trace (checkAll config w initial))) ->
  exists items,
    result (probe_all w (hosts config) initial) = Ok items /\
    m_subject m
    = "[" ++ JsString.of_nat
               (List.length (filter (reportable (Date_now w)) (sort items)))
      ++ "🚨] SSL 证书到期检测" /\
    m_html m
    = "<ul>"
      ++ fold_right append ""
           (map (fun it =>
                   "<li><strong>" ++ fst it ++ "</strong>: "
                   ++ (if daysUntilExpiry (Date_now w) (snd it) <? 0
                       then "<span style=" ++ JsString.dquote ++ "color: red;"
                            ++ JsString.dquote ++ ">已过期！</span>"
                       else moment_fromNow w (snd it) ++ "过期")
                   ++ "</li>")
                (filter (reportable (Date_now w)) (sort items)))
      ++ "</ul>".
Proof.
  rewrite (checkAll_run config w initial (or_introl eq_refl)).
  unfold run_view.
  destruct (result (probe_all w (hosts config) initial))
    as [items|e|] eqn:E.
  - intros Hin. exists items. split; [reflexivity|].
    assert (Hm : m = mail_of config
                   (subject_of (flat_map (entry w (Date_now w)) (sort items)))
                   (convertToHTMLList
                      (flat_map (entry w (Date_now w)) (sort items)))).
    { destruct (existsb (trigger (Date_now w)) items); [|destruct Hin].
      destruct (mailer_sendMail w _ _); cbn [trace mails_sent In] in Hin;
        destruct Hin as [<-|[]]; reflexivity. }
    subst m. cbn [mail_of m_subject m_html].
    rewrite convertToHTMLList_eq, content_eq. unfold subject_of.
    rewrite length_map, map_map. split; reflexivity.
  - cbn [trace mails_sent]. rewrite probe_all_no_mail. intros [].
  - cbn [trace mails_sent]. rewrite probe_all_no_mail. intros [].
Qed.

(** C8 on a run of the demo world that reports two hosts. *)
Lemma C8_mail_format_witness :
  exists items,
    result (probe_all demo_world ["a.example"; "expired.example"] initial)
    = Ok items /\
    "[2🚨] SSL 证书到期检测"
    = "[" ++ JsString.of_nat
               (List.length (filter (reportable demo_now) (sort items)))
      ++ "🚨] SSL 证书到期检测".
Proof.
  destruct (C8_mail_format
              (demo_config ["a.example"; "expired.example"]) demo_world
              (mail_of (demo_config ["a.example"; "expired.example"])
                 "[2🚨] SSL 证书到期检测"
                 ("<ul><li><strong>expired.example</strong>: " ++ EXPIRED_TEXT
                  ++ "</li><li><strong>a.example</strong>: in some time过期"
                  ++ "</li></ul>")))
    as (items & Hp & Hs & _).
  - left. reflexivity.
  - exists items. split; [exact Hp|exact Hs].
Defined.

(** C9.  [main] reads the flag once, when the process starts.  With the
    flag equal to "1" the process performs one run at once and nothing
    else, whatever time passes.  With any other value, or none, it installs
    one started job with the pattern "0 10 * * *" in the zone
    Asia/Shanghai.  The pattern is due when the clock reads 10:00:00,
    which is at one second of a day, and the effects of the process are
    those of one run for each second of its life at which the clock of
    that zone reads 10:00:00; each of these runs does what a run in a fresh
    process would do in the same world. *)
Theorem C9_mode_chosen_at_start (config : Config) (RUN : option string)
                                (w0 : World) (timeline : list Tick) :
  (RUN = Some "1" ->
   main RUN = ([ConsoleLog "run now..."], RunNow) /\
   process config RUN w0 timeline
   = ConsoleLog "run now..." :: trace (checkAll config w0 initial)) /\
  (RUN <> Some "1" ->
   main RUN
   = ([ConsoleLog "start checking per 10min..."],
      Install {| cronTime := "0 10 * * *"; start := true;
                 timeZone := "Asia/Shanghai" |}) /\
   (forall t, Cron.fires "0 10 * * *" t
              = Some ((Cron.hour t =? 10) && (Cron.minute t =? 0)
                      && (Cron.second t =? 0))) /\
   (forall dom mo dow,
      List.length
        (filter (fun t => match Cron.fires "0 10 * * *" t with
                          | Some b => b
                          | None => false
                          end)
                (Cron.seconds_of_day dom mo dow)) = 1%nat) /\
   process config RUN w0 timeline
   = ConsoleLog "start checking per 10min..."
     :: List.concat
          (map (fun t => trace (checkAll config (world t) initial))
               (filter (fun t => ten_o_clock (wall_clock t "Asia/Shanghai"))
                       timeline))).
Proof.
  split.
  - intros ->. split; reflexivity.
  - intros Hrun.
    assert (M : main RUN
                = ([ConsoleLog "start checking per 10min..."],
                   Install {| cronTime := "0 10 * * *"; start := true;
                              timeZone := "Asia/Shanghai" |})).
    { unfold main. destruct RUN as [v|]; [|reflexivity].
      destruct (String.eqb_spec v "1") as [->|]; [congruence|reflexivity]. }
    split; [exact M|]. split; [exact fires_daily|].
    split; [intros dom mo dow; now rewrite fires_once_a_day|].
    unfold process. rewrite M. cbn [start app].
    now rewrite (run_ticks_daily config timeline initial (or_introl eq_refl)).
Qed.

(** C9 on a process that lives through 09:59:59 and 10:00:00. *)
Lemma C9_mode_chosen_at_start_witness :
  process (demo_config ["a.example"]) (Some "1") demo_world demo_timeline
  = ConsoleLog "run now..."
    :: trace (checkAll (demo_config ["a.example"]) demo_world initial) /\
  process (demo_config ["a.example"]) (Some "0") demo_world demo_timeline
  = ConsoleLog "start checking per 10min..."
    :: trace (checkAll (demo_config ["a.example"]) demo_world initial).
Proof.
  split.
  - destruct (C9_mode_chosen_at_start (demo_config ["a.example"]) (Some "1")
                demo_world demo_timeline) as [H _].
    destruct (H eq_refl) as [_ H']. exact H'.
  - destruct (C9_mode_chosen_at_start (demo_config ["a.example"]) (Some "0")
                demo_world demo_timeline) as [_ H].
    destruct (H ltac:(discriminate)) as (_ & _ & _ & H').
    rewrite H'. reflexivity.
Defined.

(** C10.  With no host configured the run prints its first line and
    resolves: the loop has nothing to look at, so the report is empty and
    [needNotify] stays false, and no mail is handed to the transport. *)
Theorem C10_no_hosts (mail : Email) (w : World) :
  checkAll {| email := mail; hosts := [] |} w initial
  = {| trace := [ConsoleLog "checking all hosts..."];
       final := {| _config := Some {| email := mail; hosts := [] |} |};
       result := Ok tt |} /\
  classify_loop w (Date_now w) (sort []) = ([], false) /\
  mails_sent (trace (checkAll {| email := mail; hosts := [] |} w initial)) = [].
Proof.
  rewrite (checkAll_run _ w initial (or_introl eq_refl)).
  unfold run_view. cbn [hosts probe_all map Promise_all ret result].
  cbn [sort flat_map existsb trace mails_sent].
  repeat split.
Qed.

(** * Further properties *)

(** ** The configuration cache *)

Lemma checkAll_cached (cfg c : Config) (w : World) (st : ProcState) :
  _config st = Some c -> checkAll cfg w st = run_view c w.
Proof.
  destruct st as [[c'|]]; cbn [_config]; [|discriminate]. intros [= ->].
  unfold checkAll, run_view.
  set (st := {| _config := Some c |}).
  rewrite (bind_ok _ _ st [ConsoleLog "checking all hosts..."] st tt eq_refl).
  rewrite (bind_ok _ _ st [] st c eq_refl).
  cbn [result final trace app].
  destruct (result (probe_all w (hosts c) initial)) as [items|e|] eqn:E.
  - destruct (probe_all_ok _ _ _ E) as (T & _ & _).
    rewrite (bind_ok _ _ st [] st items).
    2:{ rewrite probe_all_run, T, E. reflexivity. }
    cbn [result final trace app].
    rewrite classify_loop_eq.
    rewrite (existsb_perm (trigger (Date_now w)) _ _ (sort_perm items)).
    destruct (existsb (trigger (Date_now w)) items); [|reflexivity].
    unfold sendMailToMe.
    rewrite (bind_ok _ _ st [] st c eq_refl).
    cbn [result final trace app].
    fold (transport_of c).
    fold (subject_of (flat_map (entry w (Date_now w)) (sort items))).
    fold (mail_of c
            (subject_of (flat_map (entry w (Date_now w)) (sort items)))
            (convertToHTMLList (flat_map (entry w (Date_now w)) (sort items)))).
    erewrite bind_ok by reflexivity.
    destruct (mailer_sendMail w _ _); reflexivity.
  - rewrite (bind_err _ _ st (trace (probe_all w (hosts c) initial)) st e).
    2:{ rewrite probe_all_run, E. reflexivity. }
    reflexivity.
  - rewrite (bind_pending _ _ st (trace (probe_all w (hosts c) initial)) st).
    2:{ rewrite probe_all_run, E. reflexivity. }
    reflexivity.
Qed.

Lemma run_view_final (c : Config) (w : World) :
  final (run_view c w) = {| _config := Some c |}.
Proof.
  unfold run_view.
  destruct (result (probe_all w (hosts c) initial)); try reflexivity.
  destruct (existsb _ _); [|reflexivity].
  destruct (mailer_sendMail w _ _); reflexivity.
Qed.

(** X1.  Once a configuration is cached in [_config], a run works from
    the cached value alone: what [require] would return makes no
    difference to anything the run does, and the cache is left as it
    was. *)
Theorem X1_cached_config_wins (cfg1 cfg2 c : Config) (w : World)
                              (st : ProcState) :
  _config st = Some c ->
  checkAll cfg1 w st = checkAll cfg2 w st /\
  final (checkAll cfg1 w st) = st.
Proof.
  intros H. rewrite (checkAll_cached cfg1 c w st H).
  rewrite (checkAll_cached cfg2 c w st H). split; [reflexivity|].
  rewrite run_view_final. destruct st as [o]. cbn [_config] in H. now subst o.
Qed.

(** X1 with a cache that names one host: a configuration file naming a
    host that is down, or none, changes nothing. *)
Lemma X1_cached_config_wins_witness :
  checkAll (demo_config ["down.example"]) demo_world
    {| _config := Some (demo_config ["a.example"]) |}
  = checkAll (demo_config []) demo_world
      {| _config := Some (demo_config ["a.example"]) |}.
Proof.
  apply (X1_cached_config_wins (demo_config ["down.example"]) (demo_config [])
           (demo_config ["a.example"]) demo_world
           {| _config := Some (demo_config ["a.example"]) |}).
  reflexivity.
Defined.

(** ** What a run sends *)

Lemma sends_app (a b : list Effect) :
  sends (a ++ b) = (sends a ++ sends b)%list.
Proof.
  induction a as [|e a IH]; cbn [sends app]; [reflexivity|].
  destruct e; cbn [app]; now rewrite IH.
Qed.

Lemma sends_mails (tr : list Effect) : map snd (sends tr) = mails_sent tr.
Proof.
  induction tr as [|e tr IH]; cbn [sends mails_sent map]; [reflexivity|].
  destruct e; cbn [map snd]; now rewrite IH.
Qed.

Lemma probe_all_no_send (w : World) (hs : list string) :
  sends (trace (probe_all w hs initial)) = [].
Proof.
  pose proof (probe_all_no_mail w hs initial) as H.
  rewrite <- sends_mails in H. now destruct (sends _).
Qed.

(** X2.  Whatever a run hands to the transport goes to the transport the
    configuration names (host, port, secure and auth of [email.from]),
    carries the sender [name <user>] and the recipient [email.to], and a
    run hands over at most one message. *)
Theorem X2_mail_envelope (config : Config) (w : World) :
  (List.length (sends (trace (checkAll config w initial))) <= 1)%nat /\
  forall t m,
    In (t, m) (sends (trace (checkAll config w initial))) ->
    t = {| t_host := host (from (email config));
           t_port := port (from (email config));
           t_secure := secure (from (email config));
           t_auth := auth (from (email config)) |} /\
    m_from m
    = name (from (email config)) ++ " <"
      ++ user (auth (from (email config))) ++ ">" /\
    m_to m = to (email config).
Proof.
  rewrite (checkAll_run config w initial (or_introl eq_refl)).
  unfold run_view.
  destruct (result (probe_all w (hosts config) initial)) as [items|e|];
    cbn [trace sends];
    try (rewrite probe_all_no_send; split; [apply le_S, le_n|intros t m []]).
  destruct (existsb _ _);
    [|cbn [trace sends]; split; [apply le_S, le_n|intros t m []]].
  destruct (mailer_sendMail w _ _); cbn [trace sends List.length In];
    (split; [apply le_n|]);
    intros t m [[= <- <-]|[]]; repeat split.
Qed.

(** X2 on a run of the demo world that sends its mail. *)
Lemma X2_mail_envelope_witness :
  sends (trace (checkAll (demo_config ["expired.example"]) demo_world initial))
  = [(transport_of (demo_config ["expired.example"]),
      {| m_from := "SSL Checker <bot@mail.example>";
         m_to := "ops@mail.example";
         m_subject := "[1🚨] SSL 证书到期检测";
         m_html := "<ul><li><strong>expired.example</strong>: "
                   ++ EXPIRED_TEXT ++ "</li></ul>" |})] /\
  (List.length
     (sends (trace (checkAll (demo_config ["expired.example"]) demo_world
                      initial))) <= 1)%nat.
Proof.
  split; [reflexivity|].
  apply (X2_mail_envelope (demo_config ["expired.example"]) demo_world).
Defined.

(** X3.  The fate of a run that hands a message over is the transport's
    answer: accepted with a message id, the run prints
    [email sent [id=...]] with that id and resolves; rejected, the run
    rejects with the transport's error and prints no such line; never
    answered, the run never settles. *)
Theorem X3_delivery_decides (config : Config) (w : World) (t : Transport)
                            (m : Mail) :
  In (t, m) (sends (trace (checkAll config w initial))) ->
  match mailer_sendMail w t m with
  | Ok messageId =>
      result (checkAll config w initial) = Ok tt /\
      infos (trace (checkAll config w initial))
      = ["email sent [id=" ++ messageId ++ "]"]
  | Err e =>
      result (checkAll config w initial) = Err e /\
      infos (trace (checkAll config w initial)) = []
  | Pending =>
      result (checkAll config w initial) = Pending /\
      infos (trace (checkAll config w initial)) = []
  end.
Proof.
  rewrite (checkAll_run config w initial (or_introl eq_refl)).
  unfold run_view.
  destruct (result (probe_all w (hosts config) initial)) as [items|e|];
    cbn [trace sends]; try (rewrite probe_all_no_send; intros []).
  destruct (existsb _ _); [|intros []].
  destruct (mailer_sendMail w _ _) eqn:E; cbn [trace sends In];
    intros [[= <- <-]|[]]; rewrite E; split; reflexivity.
Qed.

(** X3 in the demo world, whose transport accepts, and in the world whose
    transport rejects. *)
Lemma X3_delivery_decides_witness :
  result (checkAll (demo_config ["expired.example"]) demo_world initial)
  = Ok tt /\
  result (checkAll (demo_config ["expired.example"]) silent_world initial)
  = Err (Error "Invalid login: 535").
Proof.
  split.
  - apply (X3_delivery_decides (demo_config ["expired.example"]) demo_world
             (transport_of (demo_config ["expired.example"]))
             (mail_of (demo_config ["expired.example"])
                "[1🚨] SSL 证书到期检测"
                ("<ul><li><strong>expired.example</strong>: " ++ EXPIRED_TEXT
                 ++ "</li></ul>"))).
    left. reflexivity.
  - apply (X3_delivery_decides (demo_config ["expired.example"]) silent_world
             (transport_of (demo_config ["expired.example"]))
             (mail_of (demo_config ["expired.example"])
                "[1🚨] SSL 证书到期检测"
                ("<ul><li><strong>expired.example</strong>: " ++ EXPIRED_TEXT
                 ++ "</li></ul>"))).
    left. reflexivity.
Defined.

(** X4.  A run never sends an empty report: when a message is handed
    over, at least one host is reportable, and the list in the body is not
    the empty [<ul></ul>]. *)
Theorem X4_no_empty_mail (config : Config) (w : World) (m : Mail) :
  In m (mails_sent (trace (checkAll config w initial))) ->
  exists items,
    result (probe_all w (hosts config) initial) = Ok items /\
    (1 <= List.length (filter (reportable (Date_now w)) (sort items)))%nat /\
    m_html m <> "<ul></ul>".
Proof.
  rewrite (checkAll_run config w initial (or_introl eq_refl)).
  unfold run_view.
  destruct (result (probe_all w (hosts config) initial)) as [items|e|];
    cbn [trace mails_sent];
    try (rewrite probe_all_no_mail; intros []).
  destruct (existsb (trigger (Date_now w)) items) eqn:Ex; [|intros []].
  intros Hin. exists items. split; [reflexivity|].
  assert (Hm : m = mail_of config
                 (subject_of (flat_map (entry w (Date_now w)) (sort items)))
                 (convertToHTMLList
                    (flat_map (entry w (Date_now w)) (sort items)))).
  { destruct (mailer_sendMail w _ _); cbn [trace mails_sent In] in Hin;
      destruct Hin as [<-|[]]; reflexivity. }
  apply existsb_exists in Ex. destruct Ex as (it & Hit & Ht).
  assert (Hr : In it (filter (reportable (Date_now w)) (sort items))).
  { apply filter_In. split.
    - apply (Permutation_in _ (Permutation_sym (sort_perm items))), Hit.
    - unfold trigger in Ht. unfold reportable.
      apply Z.leb_le in Ht. apply Z.ltb_lt. lia. }
  subst m. cbn [mail_of m_html].
  rewrite convertToHTMLList_eq, content_eq.
  destruct (filter (reportable (Date_now w)) (sort items)) as [|x l];
    [destruct Hr|].
  split; [cbn [List.length]; lia|].
  cbn [map fold_right]. unfold li. cbn. discriminate.
Qed.

(** X4 on a run of the demo world that reports one host. *)
Lemma X4_no_empty_mail_witness :
  exists items,
    result (probe_all demo_world ["a.example"] initial) = Ok items /\
    (1 <= List.length (filter (reportable demo_now) (sort items)))%nat.
Proof.
  destruct (X4_no_empty_mail (demo_config ["a.example"]) demo_world
              (mail_of (demo_config ["a.example"]) "[1🚨] SSL 证书到期检测"
                 "<ul><li><strong>a.example</strong>: in some time过期</li></ul>"))
    as (items & H1 & H2 & _).
  - left. reflexivity.
  - exists items. split; [exact H1|exact H2].
Defined.

(** A batch that rejects holds a probe that rejected. *)
Lemma probe_all_err_inv (w : World) (hs : list string) (e : JsError) :
  result (probe_all w hs initial) = Err e ->
  exists h, In h hs /\ exists e', result (getExpireTime w h initial) = Err e'.
Proof.
  revert e. unfold probe_all.
  induction hs as [|a hs IH]; intros e; [discriminate|].
  cbn [map Promise_all]. rewrite probe_one_run. cbn [result final].
  destruct (result (getExpireTime w a initial)) as [v|e1|] eqn:Ea.
  - destruct (result (Promise_all _ initial)) as [l|e2|] eqn:Eb;
      try discriminate.
    intros _. destruct (IH e2 eq_refl) as (h0 & Hh0 & He0).
    exists h0. split; [now right|exact He0].
  - intros _. exists a. split; [now left|now exists e1].
  - destruct (result (Promise_all _ initial)) as [l|e2|] eqn:Eb;
      try discriminate.
    intros _. destruct (IH e2 eq_refl) as (h0 & Hh0 & He0).
    exists h0. split; [now right|exact He0].
Qed.

(** X5.  A host that never answers holds the whole run: as long as no
    probe fails, the run prints its first line and nothing more, hands
    nothing to the transport and never settles, whatever the other hosts
    answered. *)
Theorem X5_silent_host_stalls (config : Config) (w : World) (h : string) :
  In h (hosts config) ->
  result (getExpireTime w h initial) = Pending ->
  (forall h' e, In h' (hosts config) ->
                result (getExpireTime w h' initial) <> Err e) ->
  checkAll config w initial
  = {| trace := [ConsoleLog "checking all hosts..."];
       final := {| _config := Some config |}; result := Pending |}.
Proof.
  intros Hin Hp Hne.
  assert (R : result (probe_all w (hosts config) initial) = Pending).
  { revert Hin Hne. unfold probe_all.
    induction (hosts config) as [|h' hs IH]; [intros []|].
    intros Hin Hne. cbn [map Promise_all]. rewrite probe_one_run.
    cbn [result final].
    assert (Hne' : forall h'' e, In h'' hs ->
                     result (getExpireTime w h'' initial) <> Err e).
    { intros h'' e Hh. apply Hne. now right. }
    pose proof (Hne h') as Hh'.
    destruct (result (getExpireTime w h' initial)) as [v|e|] eqn:E.
    - destruct Hin as [->|Hin]; [congruence|].
      now rewrite (IH Hin Hne').
    - exfalso. apply (Hh' e); [now left|reflexivity].
    - destruct (result (Promise_all (map (probe_one w) hs) initial))
        as [l|e|] eqn:E'; try reflexivity.
      exfalso. fold (probe_all w hs) in E'.
      destruct (probe_all_err_inv w hs e E') as (h0 & Hh0 & e0 & He0).
      now apply (Hne' h0 e0). }
  rewrite (checkAll_run config w initial (or_introl eq_refl)).
  unfold run_view. rewrite R.
  pose proof (probe_all_quiet w (hosts config)) as Q. rewrite R in Q.
  now rewrite Q.
Qed.

(** X5 in the world with the silent host, next to a host whose certificate
    has expired. *)
Lemma X5_silent_host_stalls_witness :
  checkAll (demo_config ["expired.example"; "silent.example"]) silent_world
    initial
  = {| trace := [ConsoleLog "checking all hosts..."];
       final := {| _config :=
                     Some (demo_config ["expired.example"; "silent.example"]) |};
       result := Pending |}.
Proof.
  apply (X5_silent_host_stalls
           (demo_config ["expired.example"; "silent.example"]) silent_world
           "silent.example").
  - simpl. right. left. reflexivity.
  - reflexivity.
  - intros h' e [<-|[<-|[]]]; vm_compute; discriminate.
Defined.

(** ** The tiers in time *)

Lemma daysUntilExpiry_lt (now e k : Z) :
  daysUntilExpiry now e < k <-> 2 * (e - now) < (2 * k - 1) * DAY.
Proof.
  pose proof (proj1 (daysUntilExpiry_iff now e _) eq_refl) as B.
  change DAY with 86400000 in *. split; intros H; lia.
Qed.

(** X6.  The tests of the loop, in time instead of rounded days: a host
    is marked expired when its certificate expired more than half a day
    before [now], gets the relative phrase when it expires less than 29.5
    days after [now], is left out otherwise, and raises [needNotify] when
    it expires less than 14.5 days after [now]. *)
Theorem X6_tiers_in_time (w : World) (now : Z) (content : list Line)
                         (needNotify : bool) (host : string) (e : Z) :
  loop_body w now (content, needNotify) (host, e)
  = (if 2 * (e - now) <? - DAY then push content (host, EXPIRED_TEXT)
     else if 2 * (e - now) <? 59 * DAY
     then push content (host, moment_fromNow w e ++ "过期")
     else content,
     needNotify || (2 * (e - now) <? 29 * DAY)).
Proof.
  unfold loop_body. fold (daysUntilExpiry now e).
  pose proof (daysUntilExpiry_lt now e 0) as H0.
  pose proof (daysUntilExpiry_lt now e 30) as H30.
  pose proof (daysUntilExpiry_lt now e 15) as H15.
  change DAY with 86400000 in *.
  f_equal; [|f_equal]; case_days.
Qed.

(** X7.  A whole number of days more on the certificate raises the day
    count by that number, and as many days later the count has dropped by
    it: the rounding never loses or gains a day. *)
Theorem X7_whole_days_shift (now e k : Z) :
  daysUntilExpiry now (e + k * DAY) = daysUntilExpiry now e + k /\
  daysUntilExpiry (now + k * DAY) e = daysUntilExpiry now e - k.
Proof.
  pose proof (proj1 (daysUntilExpiry_iff now e _) eq_refl) as B.
  split; apply daysUntilExpiry_iff; change DAY with 86400000 in *; lia.
Qed.

(** ** The order of the report *)

Lemma days_sorted (now : Z) (x : Item) (l : list Item) :
  Forall (by_expiry x) l ->
  Forall (fun z => daysUntilExpiry now (snd x) <= daysUntilExpiry now (snd z)) l.
Proof.
  intros H. eapply Forall_impl; [|exact H].
  intros z Hz. now apply daysUntilExpiry_mono.
Qed.

Lemma report_of_unexpired (w : World) (now : Z) (l : list Item) :
  Forall (fun z => 0 <= daysUntilExpiry now (snd z)) l ->
  filter (fun it => daysUntilExpiry now (snd it) <? 0) l = [] /\
  map (fun it => (fst it, displayText w now it)) (filter (reportable now) l)
  = map (fun it => (fst it, moment_fromNow w (snd it) ++ "过期"))
        (filter (fun it => (0 <=? daysUntilExpiry now (snd it))
                           && (daysUntilExpiry now (snd it) <? 30)) l).
Proof.
  induction 1 as [|z l Hz _ [IH1 IH2]]; cbn [filter map]; [now split|].
  unfold reportable at 1.
  destruct (Z.ltb_spec (daysUntilExpiry now (snd z)) 0) as [|N]; [lia|].
  destruct (Z.leb_spec 0 (daysUntilExpiry now (snd z))); [|lia].
  split; [exact IH1|]. cbn [andb].
  destruct (daysUntilExpiry now (snd z) <? 30); cbn [map]; [|exact IH2].
  rewrite IH2. unfold displayText.
  destruct (Z.ltb_spec (daysUntilExpiry now (snd z)) 0); [lia|reflexivity].
Qed.

(** The mail of a run whose probes all answered. *)
Lemma run_mails_eq (config : Config) (w : World) (items : list Item) :
  result (probe_all w (hosts config) initial) = Ok items ->
  mails_sent (trace (checkAll config w initial))
  = if existsb (trigger (Date_now w)) items
    then [mail_of config
            (subject_of (fst (classify_loop w (Date_now w) (sort items))))
            (convertToHTMLList
               (fst (classify_loop w (Date_now w) (sort items))))]
    else [].
Proof.
  intros E. rewrite (checkAll_run config w initial (or_introl eq_refl)).
  unfold run_view. rewrite E, classify_loop_eq. cbn [fst].
  destruct (existsb (trigger (Date_now w)) items); [|reflexivity].
  destruct (mailer_sendMail w _ _); reflexivity.
Qed.

(** X8.  In the report the hosts marked expired come first, before every
    host with a relative phrase; each group is in ascending order of
    expiry.  So is the body of the mail of a run whose probes all
    answered with [items]. *)
Theorem X8_expired_first (w : World) (now : Z) (items : list Item) :
  fst (classify_loop w now (sort items))
  = List.app
      (map (fun it => (fst it, EXPIRED_TEXT))
           (filter (fun it => daysUntilExpiry now (snd it) <? 0) (sort items)))
      (map (fun it => (fst it, moment_fromNow w (snd it) ++ "过期"))
           (filter (fun it => (0 <=? daysUntilExpiry now (snd it))
                              && (daysUntilExpiry now (snd it) <? 30))
                   (sort items))) /\
  forall config m,
    result (probe_all w (hosts config) initial) = Ok items ->
    In m (mails_sent (trace (checkAll config w initial))) ->
    m_html m
    = convertToHTMLList
        (List.app
           (map (fun it => (fst it, EXPIRED_TEXT))
                (filter (fun it => daysUntilExpiry (Date_now w) (snd it) <? 0)
                        (sort items)))
           (map (fun it => (fst it, moment_fromNow w (snd it) ++ "过期"))
                (filter (fun it =>
                           (0 <=? daysUntilExpiry (Date_now w) (snd it))
                           && (daysUntilExpiry (Date_now w) (snd it) <? 30))
                        (sort items)))).
Proof.
  assert (G : forall now,
            fst (classify_loop w now (sort items))
            = List.app
                (map (fun it => (fst it, EXPIRED_TEXT))
                     (filter (fun it => daysUntilExpiry now (snd it) <? 0)
                             (sort items)))
                (map (fun it => (fst it, moment_fromNow w (snd it) ++ "过期"))
                     (filter (fun it => (0 <=? daysUntilExpiry now (snd it))
                                        && (daysUntilExpiry now (snd it) <? 30))
                             (sort items))));
    [|split; [apply G|];
      intros config m E Hin; rewrite (run_mails_eq config w items E) in Hin;
      destruct (existsb _ _); [|destruct Hin];
      destruct Hin as [<-|[]]; cbn [mail_of m_html]; now rewrite G].
  clear now. intros now.
  rewrite classify_loop_eq, content_eq. cbn [fst].
  induction (sort_sorted items) as [|y l Hs IH Hy]; [reflexivity|].
  destruct (Z.lt_ge_cases (daysUntilExpiry now (snd y)) 0) as [N|N].
  - cbn [filter]. unfold reportable at 1.
    destruct (Z.ltb_spec (daysUntilExpiry now (snd y)) 0); [|lia].
    destruct (Z.ltb_spec (daysUntilExpiry now (snd y)) 30); [|lia].
    destruct (Z.leb_spec 0 (daysUntilExpiry now (snd y))); [lia|].
    cbn [andb map app]. f_equal; [|exact IH].
    unfold displayText.
    destruct (Z.ltb_spec (daysUntilExpiry now (snd y)) 0); [reflexivity|lia].
  - assert (A : Forall (fun z => 0 <= daysUntilExpiry now (snd z)) (y :: l)).
    { constructor; [exact N|].
      eapply Forall_impl; [|exact (days_sorted now y l Hy)].
      intros z Hz. cbv beta in Hz. lia. }
    destruct (report_of_unexpired w now (y :: l) A) as [F M].
    rewrite F, M. reflexivity.
Qed.

(** X9.  What notifies is the soonest certificate: [needNotify] after the
    loop is the test [diff <= 14] on the first item of the sorted array,
    and false when there is none. *)
Theorem X9_soonest_decides (w : World) (now : Z) (items : list Item) :
  snd (classify_loop w now (sort items))
  = match sort items with
    | [] => false
    | first :: _ => daysUntilExpiry now (snd first) <=? 14
    end.
Proof.
  rewrite classify_loop_eq. cbn [snd].
  destruct (sort_sorted items) as [|y l Hs Hy]; [reflexivity|].
  cbn [existsb]. unfold trigger at 1.
  destruct (Z.leb_spec (daysUntilExpiry now (snd y)) 14) as [|N];
    [reflexivity|].
  cbn [orb]. apply not_true_is_false. intros Ex.
  apply existsb_exists in Ex. destruct Ex as (z & Hz & Ht).
  pose proof (days_sorted now y l Hy) as D.
  rewrite Forall_forall in D. specialize (D z Hz).
  unfold trigger in Ht. apply Z.leb_le in Ht. lia.
Qed.

(** Two sorted arrangements of the same items, no two with the same
    expiry, are the same array. *)
Lemma sorted_unique (l l' : list Item) :
  StronglySorted by_expiry l -> StronglySorted by_expiry l' ->
  Permutation l l' -> NoDup (map snd l) -> l = l'.
Proof.
  intros Hl. revert l'.
  induction Hl as [|x l Hs IH Hx]; intros l' Hl' P N.
  - apply Permutation_nil in P. now subst.
  - destruct Hl' as [|y l' Hs' Hy].
    + apply Permutation_sym, Permutation_nil in P. discriminate.
    + assert (E : x = y).
      { assert (Hxin : In x (y :: l')) by
          (apply (Permutation_in _ P); now left).
        assert (Hyin : In y (x :: l)) by
          (apply (Permutation_in _ (Permutation_sym P)); now left).
        destruct Hxin as [->|Hxin]; [reflexivity|].
        destruct Hyin as [->|Hyin]; [reflexivity|].
        rewrite Forall_forall in Hx, Hy.
        pose proof (Hx y Hyin) as A. pose proof (Hy x Hxin) as B.
        unfold by_expiry in A, B.
        cbn [map] in N. inversion N as [|? ? Nin _]; subst.
        exfalso. apply Nin. replace (snd x) with (snd y) by lia.
        now apply in_map. }
      subst y. f_equal. apply IH; [exact Hs'| |].
      * now apply Permutation_cons_inv in P.
      * cbn [map] in N. now inversion N.
Qed.

(** X10.  When no two certificates expire at the same instant, the order
    in which the hosts are configured does not show: any rearrangement of
    the probed results sorts to the same array, hence gives the same
    report and the same [needNotify].  Two runs in the same world, with
    the same mail settings and the hosts configured in different orders,
    hand the same mails to the transport. *)
Theorem X10_config_order_irrelevant (w : World) (now : Z)
                                    (items items' : list Item) :
  Permutation items items' ->
  NoDup (map snd items) ->
  sort items = sort items' /\
  classify_loop w now (sort items) = classify_loop w now (sort items') /\
  forall config config',
    email config = email config' ->
    result (probe_all w (hosts config) initial) = Ok items ->
    result (probe_all w (hosts config') initial) = Ok items' ->
    mails_sent (trace (checkAll config w initial))
    = mails_sent (trace (checkAll config' w initial)).
Proof.
  intros P N.
  assert (E : sort items = sort items').
  { apply sorted_unique; try apply sort_sorted.
    - rewrite (sort_perm items), P. symmetry. apply sort_perm.
    - apply (Permutation_NoDup (l := map snd items)); [|exact N].
      apply Permutation_map, Permutation_sym, sort_perm. }
  split; [exact E|]. split; [now rewrite E|].
  intros config config' Em R R'.
  rewrite (run_mails_eq config w items R), (run_mails_eq config' w items' R').
  rewrite (existsb_perm (trigger (Date_now w)) items items' P), E.
  unfold mail_of. now rewrite Em.
Qed.

(** X10 on three items given in two orders. *)
Lemma X10_config_order_irrelevant_witness :
  sort [("a.example", 30); ("b.example", 10); ("c.example", 20)]
  = sort [("c.example", 20); ("a.example", 30); ("b.example", 10)].
Proof.
  refine (proj1 (X10_config_order_irrelevant demo_world 0
                   [("a.example", 30); ("b.example", 10); ("c.example", 20)]
                   [("c.example", 20); ("a.example", 30); ("b.example", 10)]
                   _ _)).
  - apply Permutation_sym. apply perm_trans with
      (l' := [("a.example", 30); ("c.example", 20); ("b.example", 10)]).
    + apply perm_swap.
    + apply perm_skip, perm_swap.
  - cbn [map snd]. repeat constructor; cbn [In]; intros H;
      repeat (destruct H as [H|H]; [discriminate H|]); exact H.
Defined.

(** ** Probes *)

Lemma invalid_host_kept (host : string) (e : JsError) :
  tslConnect_target host = Throws e ->
  String.eqb (message e) "certificate has expired" = false.
Proof.
  unfold tslConnect_target.
  destruct (JsString.includes ":" host); [|discriminate].
  destruct (JsString.split ":" host) as [|h [|p [|q l]]];
    try (intros [= <-]; reflexivity).
  destruct (ParseInt.parseInt p); [discriminate|].
  intros [= <-]. reflexivity.
Qed.

(** X11.  A host string that does not parse never reaches the network and
    is never taken for an expired certificate: in every world
    [getExpireTime] prints the invalid-host error and rejects with it. *)
Theorem X11_invalid_host_rejected (host : string) (e : JsError) (w : World)
                                  (st : ProcState) :
  tslConnect_target host = Throws e ->
  getExpireTime w host st
  = {| trace := [ConsoleError e]; final := st; result := Err e |}.
Proof.
  intros H. pose proof (invalid_host_kept host e H) as K.
  unfold getExpireTime, try_catch, tslConnect. rewrite H.
  cbn [throw result final trace]. rewrite K. reflexivity.
Qed.

(** X11 on an IPv6 literal, which has more than one colon. *)
Lemma X11_invalid_host_rejected_witness :
  getExpireTime demo_world "[2001:db8::1]:443" initial
  = {| trace := [ConsoleError (Error "invalid host: [2001:db8::1]:443")];
       final := initial;
       result := Err (Error "invalid host: [2001:db8::1]:443") |}.
Proof.
  apply (X11_invalid_host_rejected "[2001:db8::1]:443"
           (Error "invalid host: [2001:db8::1]:443") demo_world initial).
  reflexivity.
Defined.

(** X12.  [getExpireTime] resolves in two ways only: with the expiry the
    handshake gave, unchanged, or with 0 when the connection failed with
    the expired-certificate message.  The value 0 alone does not tell the
    two apart. *)
Theorem X12_resolves_two_ways (w : World) (host : string) (st : ProcState)
                              (v : Z) :
  result (getExpireTime w host st) = Ok v <->
  result (tslConnect w host st) = Ok v \/
  (v = 0 /\ exists e, result (tslConnect w host st) = Err e /\
                      message e = "certificate has expired").
Proof.
  unfold getExpireTime, try_catch.
  destruct (result (tslConnect w host st)) as [v'|e|] eqn:E.
  - rewrite E. split; [now left|].
    intros [H|(_ & e & He & _)]; [exact H|discriminate].
  - cbn [result final trace].
    destruct (String.eqb_spec (message e) "certificate has expired") as [M|M];
      cbn [ret bind emit throw result final trace].
    + split.
      * intros [= <-]. right. split; [reflexivity|]. now exists e.
      * intros [H|(-> & _)]; [discriminate|reflexivity].
    + split; [discriminate|].
      intros [H|(_ & e' & [= <-] & M')]; [discriminate|contradiction].
  - rewrite E. split; [discriminate|].
    intros [H|(_ & e & He & _)]; discriminate.
Qed.

(** X13.  The batch resolves exactly when every probe resolves, and then
    it holds one item per configured host, in the configured order, each
    with that host's expiry; the batch rejects exactly when some probe
    rejects. *)
Theorem X13_batch_of_probes (w : World) (hs : list string) :
  (forall items,
     result (probe_all w hs initial) = Ok items <->
     Forall2 (fun h it =>
                fst it = h /\
                result (getExpireTime w h initial) = Ok (snd it))
             hs items) /\
  ((exists e, result (probe_all w hs initial) = Err e) <->
   exists h, In h hs /\
             exists e, result (getExpireTime w h initial) = Err e).
Proof.
  split.
  - unfold probe_all. induction hs as [|h hs IH]; intros items.
    + cbn. split.
      * intros [= <-]. constructor.
      * intros F. inversion F. reflexivity.
    + cbn [map Promise_all]. rewrite probe_one_run. cbn [result final].
      split.
      * destruct (result (getExpireTime w h initial)) as [v|e|] eqn:E;
          destruct (result (Promise_all _ initial)) as [l|e'|] eqn:E';
          try discriminate.
        intros [= <-]. constructor; [now split|]. now apply IH.
      * intros F. inversion F as [|? it ? l [Hf Hr] Fl]; subst.
        rewrite Hr. apply IH in Fl. rewrite Fl. now destruct it.
  - split.
    + intros [e He]. exact (probe_all_err_inv w hs e He).
    + intros (h & Hin & e & He). exact (probe_all_err w hs h e Hin He).
Qed.

(** ** Host strings, the other way round *)

Lemma split_at_first (c : ascii) (h p : string) :
  JsString.count c h = 0%nat ->
  JsString.split c (h ++ String c p) = h :: JsString.split c p.
Proof.
  induction h as [|a h IH]; cbn [append JsString.split JsString.count].
  - intros _. now rewrite Ascii.eqb_refl.
  - destruct (Ascii.eqb a c); [discriminate|].
    intros H. now rewrite (IH H).
Qed.

Lemma count_append (c : ascii) (a b : string) :
  JsString.count c (a ++ b) = (JsString.count c a + JsString.count c b)%nat.
Proof.
  induction a as [|x a IH]; cbn [append JsString.count]; [reflexivity|].
  destruct (Ascii.eqb x c); cbn [Nat.add]; now rewrite IH.
Qed.

(** X14.  Whatever [tslConnect] connects to, the host name has no colon
    in it, and the host string was either that name alone, with port 443,
    or that name, a colon and a colon-free port substring that [parseInt]
    reads as the port. *)
Theorem X14_target_inverted (raw h : string) (port : JsNumber.Number) :
  tslConnect_target raw = Returns (h, port) ->
  JsString.count ":" h = 0%nat /\
  ((raw = h /\ port = JsNumber.Finite 443) \/
   exists p, raw = h ++ ":" ++ p /\ JsString.count ":" p = 0%nat /\
             ParseInt.parseInt p = Some port).
Proof.
  unfold tslConnect_target. rewrite includes_count.
  destruct (JsString.count ":" raw) as [|[|k]] eqn:C; cbn [Nat.eqb negb].
  - intros [= <- <-]. split; [exact C|]. left. now split.
  - destruct (split_once ":" raw C) as (h' & p & -> & -> & Hh & Hp).
    destruct (ParseInt.parseInt p) as [n|] eqn:P; [|discriminate].
    intros [= <- <-]. split; [exact Hh|]. right. exists p. now repeat split.
  - pose proof (split_length ":" raw) as L. rewrite C in L.
    destruct (JsString.split ":" raw) as [|a [|b [|c l]]];
      try discriminate L; discriminate.
Qed.

(** X14 on a host string with a port. *)
Lemma X14_target_inverted_witness :
  JsString.count ":" "example.com" = 0%nat /\
  (("example.com:8443" = "example.com" /\
    JsNumber.Finite 8443 = JsNumber.Finite 443) \/
   exists p, "example.com:8443" = "example.com" ++ ":" ++ p /\
             JsString.count ":" p = 0%nat /\
             ParseInt.parseInt p = Some (JsNumber.Finite 8443)).
Proof.
  apply (X14_target_inverted "example.com:8443" "example.com"
           (JsNumber.Finite 8443)).
  reflexivity.
Defined.

(** Decimal numerals, as template literals print them, and [parseInt]. *)
Lemma leading_digits_uint (d : Decimal.uint) :
  ParseInt.leading_digits 10 (NilEmpty.string_of_uint d) = uint_digits d /\
  List.length (uint_digits d) = String.length (NilEmpty.string_of_uint d) /\
  JsString.count ":" (NilEmpty.string_of_uint d) = 0%nat.
Proof.
  induction d as [|d [I1 [I2 I3]]|d [I1 [I2 I3]]|d [I1 [I2 I3]]
                  |d [I1 [I2 I3]]|d [I1 [I2 I3]]|d [I1 [I2 I3]]
                  |d [I1 [I2 I3]]|d [I1 [I2 I3]]|d [I1 [I2 I3]]
                  |d [I1 [I2 I3]]];
    cbn [NilEmpty.string_of_uint ParseInt.leading_digits uint_digits
         List.length String.length JsString.count];
    [now repeat split|..];
    (split; [|split]);
    try (now rewrite I2); try exact I3;
    match goal with
    | |- context [ParseInt.digit_value 10 ?a] =>
        let v := eval vm_compute in (ParseInt.digit_value 10 a) in
        change (ParseInt.digit_value 10 a) with v
    end;
    now rewrite I1.
Qed.

Lemma digits_value_uint (d : Decimal.uint) (acc : nat) :
  fold_left (fun a x => a * 10 + x) (uint_digits d) (Z.of_nat acc)
  = Z.of_nat (Nat.of_uint_acc d acc).
Proof.
  revert acc.
  induction d; intros acc; cbn [uint_digits fold_left Nat.of_uint_acc];
    [reflexivity|..];
    rewrite <- IHd; f_equal; rewrite ?Nat.tail_mul_spec; lia.
Qed.

Lemma base10_uint (d : Decimal.uint) :
  d <> Decimal.Nil ->
  Spec.base10_integer (NilEmpty.string_of_uint d)
  = Some (Z.of_nat (Nat.of_uint d)).
Proof.
  intros Hd.
  assert (D : ParseInt.decimal (NilEmpty.string_of_uint d)
              = Some (Z.of_nat (Nat.of_uint d))).
  { unfold ParseInt.decimal.
    destruct (leading_digits_uint d) as (L1 & L2 & _). rewrite L1.
    assert (V : ParseInt.digits_value 10 (uint_digits d)
                = Z.of_nat (Nat.of_uint d))
      by exact (digits_value_uint d 0).
    destruct d; [contradiction|..]; cbn [uint_digits] in *;
      rewrite L2, Nat.eqb_refl, V; reflexivity. }
  unfold Spec.base10_integer.
  destruct d; [contradiction|exact D..].
Qed.

Lemma mathInt_of_nat (n : nat) :
  ParseInt.mathInt (JsString.of_nat n) = Some (Z.of_nat n) /\
  JsString.count ":" (JsString.of_nat n) = 0%nat.
Proof.
  unfold JsString.of_nat, NilZero.string_of_uint.
  pose proof (DecimalNat.Unsigned.of_to n) as OT.
  destruct (Nat.to_uint n) as [|d|d|d|d|d|d|d|d|d|d] eqn:U;
    [cbn in OT; subst n; split; reflexivity|..];
    (split; [|apply leading_digits_uint]);
    apply mathInt_base10; rewrite base10_uint by discriminate;
    now rewrite OT.
Qed.

(** X15.  A host name without a colon, a colon and a port written out in
    decimal parse back to that name and that port, for every port up to
    [2^53], the range in which integers are Numbers. *)
Theorem X15_host_port_round_trip (h : string) (n : nat) :
  JsString.count ":" h = 0%nat ->
  Z.of_nat n <= 9007199254740992 ->
  tslConnect_target (h ++ ":" ++ JsString.of_nat n)
  = Returns (h, JsNumber.Finite (Z.of_nat n)).
Proof.
  intros Hh Hn. destruct (mathInt_of_nat n) as [P C].
  unfold tslConnect_target. rewrite includes_count, count_append.
  rewrite Hh. cbn [append JsString.count Ascii.eqb Bool.eqb Nat.add Nat.eqb negb].
  change (String ":" (JsString.of_nat n)) with (":" ++ JsString.of_nat n).
  cbn [append]. rewrite (split_at_first ":" h _ Hh), (split_none ":" _ C).
  unfold ParseInt.parseInt. rewrite P. cbn [option_map].
  now rewrite of_Z_exact by lia.
Qed.

(** X15 on a host name and the port 993. *)
Lemma X15_host_port_round_trip_witness :
  tslConnect_target ("example.com" ++ ":" ++ JsString.of_nat 993)
  = Returns ("example.com", JsNumber.Finite 993).
Proof.
  apply (X15_host_port_round_trip "example.com" 993).
  - reflexivity.
  - vm_compute. discriminate.
Defined.

(** Above [2^53] the port that reaches [tls.connect] is the binary64 value
    next to the one written. *)
Example round_trip_bound :
  tslConnect_target "example.com:9007199254740993"
  = Returns ("example.com", JsNumber.Finite 9007199254740992).
Proof. vm_compute. reflexivity. Qed.

(** ** The process and its mail *)

Lemma run_mails_le_one (config : Config) (w : World) :
  (List.length (mails_sent (trace (checkAll config w initial))) <= 1)%nat.
Proof.
  rewrite (checkAll_run config w initial (or_introl eq_refl)).
  unfold run_view.
  destruct (result (probe_all w (hosts config) initial)) as [items|e|];
    cbn [trace mails_sent];
    try (rewrite probe_all_no_mail; apply le_S, le_n).
  destruct (existsb _ _); [|apply le_S, le_n].
  destruct (mailer_sendMail w _ _); apply le_n.
Qed.

Lemma mails_of_runs (config : Config) (ticks : list Tick) :
  (List.length
     (mails_sent
        (List.concat
           (map (fun t => trace (checkAll config (world t) initial)) ticks)))
   <= List.length ticks)%nat.
Proof.
  induction ticks as [|t ticks IH]; cbn [map List.concat List.length];
    [apply le_n|].
  rewrite mails_sent_app, length_app.
  pose proof (run_mails_le_one config (world t)). lia.
Qed.

(** X16.  The process sends at most one mail for each run it starts: at
    most one in all when the flag is "1", and otherwise at most as many as
    its life has seconds at which the clock of Asia/Shanghai reads
    10:00:00, so none before the first of them. *)
Theorem X16_one_mail_a_day (config : Config) (RUN : option string)
                           (w0 : World) (timeline : list Tick) :
  (RUN = Some "1" ->
   (List.length (mails_sent (process config RUN w0 timeline)) <= 1)%nat) /\
  (RUN <> Some "1" ->
   (List.length (mails_sent (process config RUN w0 timeline))
    <= List.length
         (filter (fun t => ten_o_clock (wall_clock t "Asia/Shanghai"))
                 timeline))%nat).
Proof.
  split.
  - intros ->. unfold process. cbn [main String.eqb Ascii.eqb Bool.eqb app].
    cbn [mails_sent]. apply run_mails_le_one.
  - intros Hrun. unfold process.
    assert (M : main RUN
                = ([ConsoleLog "start checking per 10min..."],
                   Install {| cronTime := "0 10 * * *"; start := true;
                              timeZone := "Asia/Shanghai" |})).
    { unfold main. destruct RUN as [v|]; [|reflexivity].
      destruct (String.eqb_spec v "1") as [->|]; [congruence|reflexivity]. }
    rewrite M. cbn [start app mails_sent].
    rewrite (run_ticks_daily config timeline initial (or_introl eq_refl)).
    apply mails_of_runs.
Qed.

(** X16 on the two seconds of the demo timeline, one of them 10:00:00. *)
Lemma X16_one_mail_a_day_witness :
  (List.length
     (mails_sent (process (demo_config ["expired.example"]) (Some "1")
                    demo_world demo_timeline)) <= 1)%nat /\
  (List.length
     (mails_sent (process (demo_config ["expired.example"]) None
                    demo_world demo_timeline)) <= 1)%nat.
Proof.
  split.
  - destruct (X16_one_mail_a_day (demo_config ["expired.example"]) (Some "1")
                demo_world demo_timeline) as [H _].
    apply H. reflexivity.
  - destruct (X16_one_mail_a_day (demo_config ["expired.example"]) None
                demo_world demo_timeline) as [_ H].
    apply H. discriminate.
Defined.

(** X17.  However a run ends, resolved, rejected or never settled, it
    leaves the configuration cached, so only the first run of a process
    loads it. *)
Theorem X17_run_fills_cache (config : Config) (w : World) (st : ProcState) :
  reachable config st ->
  final (checkAll config w st) = {| _config := Some config |}.
Proof.
  intros R. rewrite (checkAll_run config w st R). apply run_view_final.
Qed.

(** X17 on a run that rejects because a host is down. *)
Lemma X17_run_fills_cache_witness :
  final (checkAll (demo_config ["down.example"]) demo_world initial)
  = {| _config := Some (demo_config ["down.example"]) |}.
Proof.
  apply (X17_run_fills_cache (demo_config ["down.example"]) demo_world initial).
  left. reflexivity.
Defined.
